(** * MEDIMORPH: the MongoDB data model of [mongodb_config.py]

    A shallow embedding of the module: the five MongoEngine document
    classes with their declared fields, their [to_dict] serialisers, the
    password methods of [User], the [save] overrides, the connection set-up
    and the two maintenance utilities.

    Conventions.
    - A Python attribute that may hold [None] is an [option]; an attribute
      holds a value of its declared field type.
    - A Python [str] is the [string] of its UTF-8 bytes; [len] counts its
      characters ([py_len]), not its bytes.
    - A [datetime] is naive, as [datetime.utcnow()] and the driver (with
      [tz_aware] unset) produce them.
    - A function that reads the clock, draws a salt or an identifier, prints
      or talks to the database is a computation over an explicit [World]
      and may end in a Python exception ([Raise]).
    - What the libraries do (MongoEngine's validation, queries and writes,
      Werkzeug's hash format) is written out as far as the module relies on
      it; Werkzeug's digest, MongoEngine's e-mail syntax check, the clock,
      the random sources, the errors of the driver and the server's faults
      are inputs ([Env]). *)

From Stdlib Require Import String Ascii List NArith ZArith Bool Lia.
From Stdlib Require Import Floats.PrimFloat.
Import ListNotations.

Local Open Scope string_scope.
Local Open Scope N_scope.

(* ===================================================================== *)
(** * Python values                                                      *)
(* ===================================================================== *)

(** ** Decimal and hexadecimal rendering *)

Definition digit_char (n : N) : ascii := ascii_of_N (48 + n mod 10).

Definition is_digit (c : ascii) : bool :=
  (48 <=? N_of_ascii c) && (N_of_ascii c <=? 57).

(** The [w] least significant decimal digits of [n]. *)
Fixpoint fixed_digits (w : nat) (n : N) : string :=
  match w with
  | O => ""
  | S w' => fixed_digits w' (n / 10) ++ String (digit_char n) ""
  end.

(** [str(n)] for a natural number, with enough fuel for its digits. *)
Fixpoint decimal_fuel (fuel : nat) (n : N) (acc : string) : string :=
  match fuel with
  | O => acc
  | S fuel' =>
      let acc' := String (digit_char n) acc in
      if n <? 10 then acc' else decimal_fuel fuel' (n / 10) acc'
  end.

Definition decimal (n : N) : string :=
  decimal_fuel (S (N.to_nat (N.log2 n))) n "".

(** Python's ["%0wd" % n] for [n >= 0]: at least [w] digits, zero filled. *)
Definition zpad (w : nat) (n : N) : string :=
  if n <? 10 ^ N.of_nat w then fixed_digits w n else decimal n.

Definition hex_char (n : N) : ascii :=
  if n mod 16 <? 10 then ascii_of_N (48 + n mod 16)
  else ascii_of_N (87 + n mod 16).

Definition hex_byte (b : Byte.byte) : string :=
  let n := Byte.to_N b in
  String (hex_char (n / 16)) (String (hex_char n) "").

(** ** bson.ObjectId: twelve opaque bytes; [str] gives their hex digits. *)

Definition ObjectId := list Byte.byte.

Definition ObjectId_str (o : ObjectId) : string :=
  fold_right (fun b acc => hex_byte b ++ acc) "" o.

(** [str(x)] where [x] is an ObjectId or [None]. *)
Definition py_str_id (x : option ObjectId) : string :=
  match x with
  | Some o => ObjectId_str o
  | None => "None"
  end.

(** ** datetime.datetime (naive, as [datetime.utcnow()] returns them) *)

Definition is_leap (y : N) : bool :=
  (y mod 4 =? 0) && (negb (y mod 100 =? 0) || (y mod 400 =? 0)).

Definition days_in_month (y m : N) : N :=
  if m =? 2 then (if is_leap y then 29 else 28)
  else if (m =? 4) || (m =? 6) || (m =? 9) || (m =? 11) then 30
  else 31.

(** The range checks of the [datetime] constructor. *)
Definition datetime_check (y mo d h mi s us : N) : bool :=
  (1 <=? y) && (y <=? 9999) && (1 <=? mo) && (mo <=? 12) &&
  (1 <=? d) && (d <=? days_in_month y mo) &&
  (h <? 24) && (mi <? 60) && (s <? 60) && (us <? 1000000).

Record datetime := mk_datetime {
  year : N; month : N; day : N;
  hour : N; minute : N; second : N; microsecond : N;
  datetime_ok : datetime_check year month day hour minute second microsecond = true
}.

(** [datetime.isoformat()] with the default separator and timespec. *)
Definition isoformat (d : datetime) : string :=
  zpad 4 (year d) ++ "-" ++ zpad 2 (month d) ++ "-" ++ zpad 2 (day d) ++ "T" ++
  zpad 2 (hour d) ++ ":" ++ zpad 2 (minute d) ++ ":" ++ zpad 2 (second d) ++
  (if microsecond d =? 0 then "" else "." ++ zpad 6 (microsecond d)).

(** Comparison of naive datetimes: lexicographic on the seven components. *)
Definition datetime_key (d : datetime) : list N :=
  [year d; month d; day d; hour d; minute d; second d; microsecond d].

Fixpoint lex_compare (a b : list N) : comparison :=
  match a, b with
  | [], [] => Eq
  | [], _ :: _ => Lt
  | _ :: _, [] => Gt
  | x :: a', y :: b' =>
      match x ?= y with
      | Eq => lex_compare a' b'
      | c => c
      end
  end.

Definition datetime_compare (a b : datetime) : comparison :=
  lex_compare (datetime_key a) (datetime_key b).

Definition datetime_leb (a b : datetime) : bool :=
  match datetime_compare a b with Gt => false | _ => true end.

Definition datetime_ltb (a b : datetime) : bool :=
  match datetime_compare a b with Lt => true | _ => false end.

(** ** The shape of an ISO-8601 date-time: [YYYY-MM-DDTHH:MM:SS[.ffffff]] *)

Fixpoint eat_digits (k : nat) (s : string) : option string :=
  match k with
  | O => Some s
  | S k' =>
      match s with
      | String c r => if is_digit c then eat_digits k' r else None
      | EmptyString => None
      end
  end.

Definition eat_char (c : ascii) (s : string) : option string :=
  match s with
  | String c' r => if Ascii.eqb c c' then Some r else None
  | EmptyString => None
  end.

Definition and_then {A B} (o : option A) (f : A -> option B) : option B :=
  match o with Some a => f a | None => None end.

Definition is_iso8601 (s : string) : bool :=
  match
    and_then (eat_digits 4 s) (fun s =>
    and_then (eat_char "-" s) (fun s =>
    and_then (eat_digits 2 s) (fun s =>
    and_then (eat_char "-" s) (fun s =>
    and_then (eat_digits 2 s) (fun s =>
    and_then (eat_char "T" s) (fun s =>
    and_then (eat_digits 2 s) (fun s =>
    and_then (eat_char ":" s) (fun s =>
    and_then (eat_digits 2 s) (fun s =>
    and_then (eat_char ":" s) (fun s =>
    eat_digits 2 s))))))))))
  with
  | Some "" => true
  | Some rest =>
      match and_then (eat_char "." rest) (eat_digits 6) with
      | Some "" => true
      | _ => false
      end
  | None => false
  end.

(** ** The values a document attribute or a dictionary entry can hold *)

Inductive pyval :=
| PNone
| PBool (b : bool)
| PInt (z : Z)
| PFloat (f : float)
| PStr (s : string)
| PStrList (l : list string)
| PDatetime (d : datetime)
| PObjectId (o : ObjectId).

(** A Python [dict] literal with string keys, in insertion order. *)
Definition dict := list (string * pyval).

Fixpoint dict_get (k : string) (d : dict) : option pyval :=
  match d with
  | [] => None
  | (k', v) :: d' => if String.eqb k k' then Some v else dict_get k d'
  end.

Definition dict_keys (d : dict) : list string := map fst d.

(** An attribute read as a Python value. *)
Definition of_opt {A} (inj : A -> pyval) (x : option A) : pyval :=
  match x with Some a => inj a | None => PNone end.

(** [str(self.f)] of an identifier attribute. *)
Definition str_id (x : option ObjectId) : pyval := PStr (py_str_id x).

(** [self.f.isoformat() if self.f else None]; a datetime is always truthy. *)
Definition iso_or_none (x : option datetime) : pyval :=
  match x with
  | Some d => PStr (isoformat d)
  | None => PNone
  end.

(** [str(self.f) if self.f else None]; an ObjectId is always truthy. *)
Definition str_id_or_none (x : option ObjectId) : pyval :=
  match x with
  | Some o => PStr (ObjectId_str o)
  | None => PNone
  end.

(* ===================================================================== *)
(** * MongoEngine field declarations                                     *)
(* ===================================================================== *)

Inductive FieldType :=
| StringField | EmailField | DateTimeField | BooleanField
| ObjectIdField | FloatField | IntField | ListField.

(** The [default=] argument of a field. *)
Inductive FieldDefault :=
| NoDefault
| DefaultValue (v : pyval)
| DefaultUtcNow.                (* default=datetime.utcnow *)

Record Field := mk_field {
  f_name : string;
  f_type : FieldType;
  f_required : bool;
  f_unique : bool;
  f_max_length : option nat;
  f_choices : option (list string);
  f_default : FieldDefault
}.

(** [fields.T()] and its keyword arguments, as the class bodies write them. *)
Definition field (n : string) (t : FieldType) : Field :=
  mk_field n t false false None None NoDefault.
Definition required (f : Field) : Field :=
  mk_field (f_name f) (f_type f) true (f_unique f) (f_max_length f) (f_choices f) (f_default f).
Definition unique (f : Field) : Field :=
  mk_field (f_name f) (f_type f) (f_required f) true (f_max_length f) (f_choices f) (f_default f).
Definition max_length (k : nat) (f : Field) : Field :=
  mk_field (f_name f) (f_type f) (f_required f) (f_unique f) (Some k) (f_choices f) (f_default f).
Definition choices (c : list string) (f : Field) : Field :=
  mk_field (f_name f) (f_type f) (f_required f) (f_unique f) (f_max_length f) (Some c) (f_default f).
Definition default (v : pyval) (f : Field) : Field :=
  mk_field (f_name f) (f_type f) (f_required f) (f_unique f) (f_max_length f) (f_choices f) (DefaultValue v).
Definition default_utcnow (f : Field) : Field :=
  mk_field (f_name f) (f_type f) (f_required f) (f_unique f) (f_max_length f) (f_choices f) DefaultUtcNow.

(** The primary key MongoEngine adds to every [Document] class. *)
Definition id_field : Field := field "id" ObjectIdField.

(* ===================================================================== *)
(** * The document classes                                               *)
(* ===================================================================== *)

(** ** class User(Document, UserMixin) *)

Record User := mk_User {
  User_id : option ObjectId;
  User_username : option string;
  User_email : option string;
  User_password_hash : option string;
  User_first_name : option string;
  User_last_name : option string;
  User_phone : option string;
  User_date_of_birth : option datetime;
  User_is_active : option bool;
  User_created_at : option datetime;
  User_last_login : option datetime
}.

Definition User_fields : list Field :=
  [ id_field;
    max_length 80 (unique (required (field "username" StringField)));
    max_length 120 (unique (required (field "email" EmailField)));
    max_length 200 (required (field "password_hash" StringField));
    max_length 50 (field "first_name" StringField);
    max_length 50 (field "last_name" StringField);
    max_length 20 (field "phone" StringField);
    field "date_of_birth" DateTimeField;
    default (PBool true) (field "is_active" BooleanField);
    default_utcnow (field "created_at" DateTimeField);
    field "last_login" DateTimeField ].

(** The attribute values of the instance, by field name. *)
Definition User_data (self : User) : dict :=
  [ ("id", of_opt PObjectId (User_id self));
    ("username", of_opt PStr (User_username self));
    ("email", of_opt PStr (User_email self));
    ("password_hash", of_opt PStr (User_password_hash self));
    ("first_name", of_opt PStr (User_first_name self));
    ("last_name", of_opt PStr (User_last_name self));
    ("phone", of_opt PStr (User_phone self));
    ("date_of_birth", of_opt PDatetime (User_date_of_birth self));
    ("is_active", of_opt PBool (User_is_active self));
    ("created_at", of_opt PDatetime (User_created_at self));
    ("last_login", of_opt PDatetime (User_last_login self)) ].

Definition User_get_id (self : User) : string := py_str_id (User_id self).

Definition User_to_dict (self : User) : dict :=
  [ ("id", str_id (User_id self));
    ("username", of_opt PStr (User_username self));
    ("email", of_opt PStr (User_email self));
    ("first_name", of_opt PStr (User_first_name self));
    ("last_name", of_opt PStr (User_last_name self));
    ("phone", of_opt PStr (User_phone self));
    ("date_of_birth", iso_or_none (User_date_of_birth self));
    ("is_active", of_opt PBool (User_is_active self));
    ("created_at", iso_or_none (User_created_at self));
    ("last_login", iso_or_none (User_last_login self)) ].

(** ** class Medication(Document) *)

Record Medication := mk_Medication {
  Medication_id : option ObjectId;
  Medication_user_id : option ObjectId;
  Medication_user_username : option string;
  Medication_name : option string;
  Medication_dosage : option string;
  Medication_frequency : option string;
  Medication_instructions : option string;
  Medication_duration : option string;
  Medication_start_date : option datetime;
  Medication_end_date : option datetime;
  Medication_is_active : option bool;
  Medication_created_at : option datetime;
  Medication_updated_at : option datetime;
  Medication_source : option string;
  Medication_confidence_score : option float
}.

Definition Medication_fields : list Field :=
  [ id_field;
    required (field "user_id" ObjectIdField);
    required (field "user_username" StringField);
    max_length 100 (required (field "name" StringField));
    max_length 50 (required (field "dosage" StringField));
    max_length 50 (required (field "frequency" StringField));
    max_length 500 (field "instructions" StringField);
    max_length 100 (field "duration" StringField);
    default_utcnow (field "start_date" DateTimeField);
    field "end_date" DateTimeField;
    default (PBool true) (field "is_active" BooleanField);
    default_utcnow (field "created_at" DateTimeField);
    default_utcnow (field "updated_at" DateTimeField);
    default (PStr "manual") (field "source" StringField);
    default (PFloat 1%float) (field "confidence_score" FloatField) ].

Definition Medication_data (self : Medication) : dict :=
  [ ("id", of_opt PObjectId (Medication_id self));
    ("user_id", of_opt PObjectId (Medication_user_id self));
    ("user_username", of_opt PStr (Medication_user_username self));
    ("name", of_opt PStr (Medication_name self));
    ("dosage", of_opt PStr (Medication_dosage self));
    ("frequency", of_opt PStr (Medication_frequency self));
    ("instructions", of_opt PStr (Medication_instructions self));
    ("duration", of_opt PStr (Medication_duration self));
    ("start_date", of_opt PDatetime (Medication_start_date self));
    ("end_date", of_opt PDatetime (Medication_end_date self));
    ("is_active", of_opt PBool (Medication_is_active self));
    ("created_at", of_opt PDatetime (Medication_created_at self));
    ("updated_at", of_opt PDatetime (Medication_updated_at self));
    ("source", of_opt PStr (Medication_source self));
    ("confidence_score", of_opt PFloat (Medication_confidence_score self)) ].

Definition Medication_to_dict (self : Medication) : dict :=
  [ ("id", str_id (Medication_id self));
    ("user_id", str_id (Medication_user_id self));
    ("name", of_opt PStr (Medication_name self));
    ("dosage", of_opt PStr (Medication_dosage self));
    ("frequency", of_opt PStr (Medication_frequency self));
    ("instructions", of_opt PStr (Medication_instructions self));
    ("duration", of_opt PStr (Medication_duration self));
    ("start_date", iso_or_none (Medication_start_date self));
    ("end_date", iso_or_none (Medication_end_date self));
    ("is_active", of_opt PBool (Medication_is_active self));
    ("created_at", iso_or_none (Medication_created_at self));
    ("updated_at", iso_or_none (Medication_updated_at self));
    ("source", of_opt PStr (Medication_source self));
    ("confidence_score", of_opt PFloat (Medication_confidence_score self)) ].

(** ** class Reminder(Document) *)

Record Reminder := mk_Reminder {
  Reminder_id : option ObjectId;
  Reminder_medication_id : option ObjectId;
  Reminder_user_id : option ObjectId;
  Reminder_time : option string;
  Reminder_days_of_week : option (list string);
  Reminder_is_active : option bool;
  Reminder_last_sent : option datetime;
  Reminder_next_due : option datetime;
  Reminder_created_at : option datetime;
  Reminder_updated_at : option datetime
}.

Definition all_weekdays : list string :=
  ["monday"; "tuesday"; "wednesday"; "thursday"; "friday"; "saturday"; "sunday"].

Definition Reminder_fields : list Field :=
  [ id_field;
    required (field "medication_id" ObjectIdField);
    required (field "user_id" ObjectIdField);
    required (field "time" StringField);
    default (PStrList all_weekdays) (field "days_of_week" ListField);
    default (PBool true) (field "is_active" BooleanField);
    field "last_sent" DateTimeField;
    field "next_due" DateTimeField;
    default_utcnow (field "created_at" DateTimeField);
    default_utcnow (field "updated_at" DateTimeField) ].

Definition Reminder_data (self : Reminder) : dict :=
  [ ("id", of_opt PObjectId (Reminder_id self));
    ("medication_id", of_opt PObjectId (Reminder_medication_id self));
    ("user_id", of_opt PObjectId (Reminder_user_id self));
    ("time", of_opt PStr (Reminder_time self));
    ("days_of_week", of_opt PStrList (Reminder_days_of_week self));
    ("is_active", of_opt PBool (Reminder_is_active self));
    ("last_sent", of_opt PDatetime (Reminder_last_sent self));
    ("next_due", of_opt PDatetime (Reminder_next_due self));
    ("created_at", of_opt PDatetime (Reminder_created_at self));
    ("updated_at", of_opt PDatetime (Reminder_updated_at self)) ].

Definition Reminder_to_dict (self : Reminder) : dict :=
  [ ("id", str_id (Reminder_id self));
    ("medication_id", str_id (Reminder_medication_id self));
    ("user_id", str_id (Reminder_user_id self));
    ("time", of_opt PStr (Reminder_time self));
    ("days_of_week", of_opt PStrList (Reminder_days_of_week self));
    ("is_active", of_opt PBool (Reminder_is_active self));
    ("last_sent", iso_or_none (Reminder_last_sent self));
    ("next_due", iso_or_none (Reminder_next_due self));
    ("created_at", iso_or_none (Reminder_created_at self));
    ("updated_at", iso_or_none (Reminder_updated_at self)) ].

(** ** class MedicationLog(Document) *)

Record MedicationLog := mk_MedicationLog {
  MedicationLog_id : option ObjectId;
  MedicationLog_user_id : option ObjectId;
  MedicationLog_medication_id : option ObjectId;
  MedicationLog_taken_at : option datetime;
  MedicationLog_dosage_taken : option string;
  MedicationLog_notes : option string;
  MedicationLog_status : option string;
  MedicationLog_reminder_id : option ObjectId;
  MedicationLog_created_at : option datetime
}.

Definition MedicationLog_fields : list Field :=
  [ id_field;
    required (field "user_id" ObjectIdField);
    required (field "medication_id" ObjectIdField);
    default_utcnow (field "taken_at" DateTimeField);
    max_length 50 (field "dosage_taken" StringField);
    max_length 500 (field "notes" StringField);
    default (PStr "taken") (choices ["taken"; "missed"; "delayed"] (field "status" StringField));
    field "reminder_id" ObjectIdField;
    default_utcnow (field "created_at" DateTimeField) ].

Definition MedicationLog_data (self : MedicationLog) : dict :=
  [ ("id", of_opt PObjectId (MedicationLog_id self));
    ("user_id", of_opt PObjectId (MedicationLog_user_id self));
    ("medication_id", of_opt PObjectId (MedicationLog_medication_id self));
    ("taken_at", of_opt PDatetime (MedicationLog_taken_at self));
    ("dosage_taken", of_opt PStr (MedicationLog_dosage_taken self));
    ("notes", of_opt PStr (MedicationLog_notes self));
    ("status", of_opt PStr (MedicationLog_status self));
    ("reminder_id", of_opt PObjectId (MedicationLog_reminder_id self));
    ("created_at", of_opt PDatetime (MedicationLog_created_at self)) ].

Definition MedicationLog_to_dict (self : MedicationLog) : dict :=
  [ ("id", str_id (MedicationLog_id self));
    ("user_id", str_id (MedicationLog_user_id self));
    ("medication_id", str_id (MedicationLog_medication_id self));
    ("taken_at", iso_or_none (MedicationLog_taken_at self));
    ("dosage_taken", of_opt PStr (MedicationLog_dosage_taken self));
    ("notes", of_opt PStr (MedicationLog_notes self));
    ("status", of_opt PStr (MedicationLog_status self));
    ("reminder_id", str_id_or_none (MedicationLog_reminder_id self));
    ("created_at", iso_or_none (MedicationLog_created_at self)) ].

(** ** class PrescriptionUpload(Document) *)

Record PrescriptionUpload := mk_PrescriptionUpload {
  PrescriptionUpload_id : option ObjectId;
  PrescriptionUpload_user_id : option ObjectId;
  PrescriptionUpload_filename : option string;
  PrescriptionUpload_original_filename : option string;
  PrescriptionUpload_file_path : option string;
  PrescriptionUpload_file_size : option Z;
  PrescriptionUpload_mime_type : option string;
  PrescriptionUpload_extracted_text : option string;
  PrescriptionUpload_ocr_confidence : option float;
  PrescriptionUpload_processing_time : option float;
  PrescriptionUpload_medications_found : option Z;
  PrescriptionUpload_medications_added : option Z;
  PrescriptionUpload_processing_status : option string;
  PrescriptionUpload_error_message : option string;
  PrescriptionUpload_uploaded_at : option datetime;
  PrescriptionUpload_processed_at : option datetime
}.

Definition PrescriptionUpload_fields : list Field :=
  [ id_field;
    required (field "user_id" ObjectIdField);
    required (field "filename" StringField);
    required (field "original_filename" StringField);
    required (field "file_path" StringField);
    field "file_size" IntField;
    field "mime_type" StringField;
    field "extracted_text" StringField;
    field "ocr_confidence" FloatField;
    field "processing_time" FloatField;
    default (PInt 0) (field "medications_found" IntField);
    default (PInt 0) (field "medications_added" IntField);
    default (PStr "pending")
      (choices ["pending"; "processing"; "completed"; "failed"]
         (field "processing_status" StringField));
    field "error_message" StringField;
    default_utcnow (field "uploaded_at" DateTimeField);
    field "processed_at" DateTimeField ].

Definition PrescriptionUpload_data (self : PrescriptionUpload) : dict :=
  [ ("id", of_opt PObjectId (PrescriptionUpload_id self));
    ("user_id", of_opt PObjectId (PrescriptionUpload_user_id self));
    ("filename", of_opt PStr (PrescriptionUpload_filename self));
    ("original_filename", of_opt PStr (PrescriptionUpload_original_filename self));
    ("file_path", of_opt PStr (PrescriptionUpload_file_path self));
    ("file_size", of_opt PInt (PrescriptionUpload_file_size self));
    ("mime_type", of_opt PStr (PrescriptionUpload_mime_type self));
    ("extracted_text", of_opt PStr (PrescriptionUpload_extracted_text self));
    ("ocr_confidence", of_opt PFloat (PrescriptionUpload_ocr_confidence self));
    ("processing_time", of_opt PFloat (PrescriptionUpload_processing_time self));
    ("medications_found", of_opt PInt (PrescriptionUpload_medications_found self));
    ("medications_added", of_opt PInt (PrescriptionUpload_medications_added self));
    ("processing_status", of_opt PStr (PrescriptionUpload_processing_status self));
    ("error_message", of_opt PStr (PrescriptionUpload_error_message self));
    ("uploaded_at", of_opt PDatetime (PrescriptionUpload_uploaded_at self));
    ("processed_at", of_opt PDatetime (PrescriptionUpload_processed_at self)) ].

Definition PrescriptionUpload_to_dict (self : PrescriptionUpload) : dict :=
  [ ("id", str_id (PrescriptionUpload_id self));
    ("user_id", str_id (PrescriptionUpload_user_id self));
    ("filename", of_opt PStr (PrescriptionUpload_filename self));
    ("original_filename", of_opt PStr (PrescriptionUpload_original_filename self));
    ("file_size", of_opt PInt (PrescriptionUpload_file_size self));
    ("mime_type", of_opt PStr (PrescriptionUpload_mime_type self));
    ("extracted_text", of_opt PStr (PrescriptionUpload_extracted_text self));
    ("ocr_confidence", of_opt PFloat (PrescriptionUpload_ocr_confidence self));
    ("processing_time", of_opt PFloat (PrescriptionUpload_processing_time self));
    ("medications_found", of_opt PInt (PrescriptionUpload_medications_found self));
    ("medications_added", of_opt PInt (PrescriptionUpload_medications_added self));
    ("processing_status", of_opt PStr (PrescriptionUpload_processing_status self));
    ("error_message", of_opt PStr (PrescriptionUpload_error_message self));
    ("uploaded_at", iso_or_none (PrescriptionUpload_uploaded_at self));
    ("processed_at", iso_or_none (PrescriptionUpload_processed_at self)) ].

(* ===================================================================== *)
(** * The world the module runs in                                       *)
(* ===================================================================== *)

(** Exceptions (all subclasses of Python's [Exception]). *)
Inductive exn :=
| ValidationError (errors : list (string * string))  (* field name, message *)
| NotUniqueError (msg : string)
| ConnectionFailure (msg : string)
| PyMongoError (msg : string)
| AttributeError (msg : string).

Inductive outcome (A : Type) :=
| Return (a : A)
| Raise (e : exn).
Arguments Return {A} a.
Arguments Raise {A} e.

(** The keyword arguments of [mongoengine.connect]. *)
Record ConnSettings := mk_ConnSettings {
  cs_db : string;
  cs_host : string;
  cs_serverSelectionTimeoutMS : N;
  cs_connectTimeoutMS : N;
  cs_socketTimeoutMS : N;
  cs_maxPoolSize : N;
  cs_retryWrites : bool
}.

Inductive DriverCall :=
| CallDisconnect
| CallConnect (s : ConnSettings).

(** What lies outside the module: the clock, the random sources, the
    server, and the two library functions whose code is not part of it
    (Werkzeug's digest and MongoEngine's e-mail syntax check). *)
Record Env := mk_Env {
  env_clock : nat -> datetime;          (* k-th reading of datetime.utcnow() *)
  env_salt : nat -> string;             (* k-th salt drawn by gen_salt *)
  env_oid : nat -> ObjectId;            (* k-th ObjectId generated *)
  env_connect_error : option exn;       (* connect() itself raises *)
  env_fault : nat -> option exn;        (* the k-th operation on the server raises *)
  werkzeug_method : string;             (* the method tag written into a hash *)
  werkzeug_hash : string -> string -> string -> string;
                                        (* _hash_internal(method, salt, password) *)
  email_valid : string -> bool          (* EmailField's syntax check *)
}.

Record World := mk_World {
  env : Env;
  n_clock : nat;
  n_salt : nat;
  n_oid : nat;
  n_op : nat;
  connection : option ConnSettings;     (* the registered default connection *)
  users : list User;
  medications : list Medication;
  reminders : list Reminder;
  medication_logs : list MedicationLog;
  prescription_uploads : list PrescriptionUpload;
  stdout : list string;
  driver_calls : list DriverCall        (* ghost: calls made to the driver *)
}.

Definition set_n_clock (k : nat) (w : World) : World :=
  mk_World (env w) k (n_salt w) (n_oid w) (n_op w) (connection w) (users w)
    (medications w) (reminders w) (medication_logs w) (prescription_uploads w)
    (stdout w) (driver_calls w).
Definition set_n_salt (k : nat) (w : World) : World :=
  mk_World (env w) (n_clock w) k (n_oid w) (n_op w) (connection w) (users w)
    (medications w) (reminders w) (medication_logs w) (prescription_uploads w)
    (stdout w) (driver_calls w).
Definition set_n_oid (k : nat) (w : World) : World :=
  mk_World (env w) (n_clock w) (n_salt w) k (n_op w) (connection w) (users w)
    (medications w) (reminders w) (medication_logs w) (prescription_uploads w)
    (stdout w) (driver_calls w).
Definition set_n_op (k : nat) (w : World) : World :=
  mk_World (env w) (n_clock w) (n_salt w) (n_oid w) k (connection w) (users w)
    (medications w) (reminders w) (medication_logs w) (prescription_uploads w)
    (stdout w) (driver_calls w).
Definition set_connection (c : option ConnSettings) (w : World) : World :=
  mk_World (env w) (n_clock w) (n_salt w) (n_oid w) (n_op w) c (users w)
    (medications w) (reminders w) (medication_logs w) (prescription_uploads w)
    (stdout w) (driver_calls w).
Definition set_users (l : list User) (w : World) : World :=
  mk_World (env w) (n_clock w) (n_salt w) (n_oid w) (n_op w) (connection w) l
    (medications w) (reminders w) (medication_logs w) (prescription_uploads w)
    (stdout w) (driver_calls w).
Definition set_medications (l : list Medication) (w : World) : World :=
  mk_World (env w) (n_clock w) (n_salt w) (n_oid w) (n_op w) (connection w) (users w)
    l (reminders w) (medication_logs w) (prescription_uploads w)
    (stdout w) (driver_calls w).
Definition set_reminders (l : list Reminder) (w : World) : World :=
  mk_World (env w) (n_clock w) (n_salt w) (n_oid w) (n_op w) (connection w) (users w)
    (medications w) l (medication_logs w) (prescription_uploads w)
    (stdout w) (driver_calls w).
Definition set_medication_logs (l : list MedicationLog) (w : World) : World :=
  mk_World (env w) (n_clock w) (n_salt w) (n_oid w) (n_op w) (connection w) (users w)
    (medications w) (reminders w) l (prescription_uploads w)
    (stdout w) (driver_calls w).
Definition set_prescription_uploads (l : list PrescriptionUpload) (w : World) : World :=
  mk_World (env w) (n_clock w) (n_salt w) (n_oid w) (n_op w) (connection w) (users w)
    (medications w) (reminders w) (medication_logs w) l
    (stdout w) (driver_calls w).
Definition set_stdout (l : list string) (w : World) : World :=
  mk_World (env w) (n_clock w) (n_salt w) (n_oid w) (n_op w) (connection w) (users w)
    (medications w) (reminders w) (medication_logs w) (prescription_uploads w)
    l (driver_calls w).
Definition set_driver_calls (l : list DriverCall) (w : World) : World :=
  mk_World (env w) (n_clock w) (n_salt w) (n_oid w) (n_op w) (connection w) (users w)
    (medications w) (reminders w) (medication_logs w) (prescription_uploads w)
    (stdout w) l.

(** ** Computations: state that survives an exception *)

Definition M (A : Type) : Type := World -> outcome A * World.

Definition ret {A} (a : A) : M A := fun w => (Return a, w).

Definition raise {A} (e : exn) : M A := fun w => (Raise e, w).

Definition bind {A B} (m : M A) (k : A -> M B) : M B :=
  fun w =>
    match m w with
    | (Return a, w') => k a w'
    | (Raise e, w') => (Raise e, w')
    end.

(** [try: body  except Exception as e: handler(e)] *)
Definition try_except {A} (body : M A) (handler : exn -> M A) : M A :=
  fun w =>
    match body w with
    | (Return a, w') => (Return a, w')
    | (Raise e, w') => handler e w'
    end.

Declare Scope py_scope.
Delimit Scope py_scope with py.
Notation "x <- m ;; k" := (bind m (fun x => k))
  (at level 61, m at next level, right associativity) : py_scope.
Notation "m ;; k" := (bind m (fun _ => k))
  (at level 61, right associativity) : py_scope.
Local Open Scope py_scope.

(** A method that mutates [self]: the object after the call is returned
    whether or not the call raised. *)
Definition Method (D A : Type) : Type := D -> World -> D * outcome A * World.

Definition call {D A} (m : Method D A) (self : D) : M D :=
  fun w =>
    match m self w with
    | (self', Return _, w') => (Return self', w')
    | (_, Raise e, w') => (Raise e, w')
    end.

(** ** Primitive effects *)

Definition utcnow : M datetime :=
  fun w => (Return (env_clock (env w) (n_clock w)), set_n_clock (S (n_clock w)) w).

Definition gen_salt : M string :=
  fun w => (Return (env_salt (env w) (n_salt w)), set_n_salt (S (n_salt w)) w).

Definition print (s : string) : M unit :=
  fun w => (Return tt, set_stdout (stdout w ++ [s]) w).

(** One operation on the server (a query, a write, a command): it raises
    when the environment says so. *)
Definition driver_op : M unit :=
  fun w =>
    let w' := set_n_op (S (n_op w)) w in
    match env_fault (env w) (n_op w) with
    | Some e => (Raise e, w')
    | None => (Return tt, w')
    end.

(** An operation on a collection needs the default connection. *)
Definition round_trip : M unit :=
  fun w =>
    match connection w with
    | None => (Raise (ConnectionFailure "You have not defined a default connection"), w)
    | Some _ => driver_op w
    end.

Definition exn_str (e : exn) : string :=
  match e with
  | ValidationError errors =>
      "ValidationError (" ++ String.concat ", " (map fst errors) ++ ")"
  | NotUniqueError msg => msg
  | ConnectionFailure msg => msg
  | PyMongoError msg => msg
  | AttributeError msg => msg
  end.

(* ===================================================================== *)
(** * Connection set-up                                                  *)
(* ===================================================================== *)

Definition MONGODB_URI : string := "mongodb://localhost:27017/".
Definition DATABASE_NAME : string := "medimorph_db".

(** [mongoengine.disconnect()]: forgets the default connection. *)
Definition disconnect : M unit :=
  fun w => (Return tt,
            set_driver_calls (driver_calls w ++ [CallDisconnect])
              (set_connection None w)).

(** [mongoengine.connect(...)]: builds the client and registers it as the
    default connection.  The client is lazy: no server is contacted before
    the first operation, so an unreachable server or a refused login does
    not make [connect] raise; it raises only for an error of its own (a
    setting the driver refuses). *)
Definition connect (s : ConnSettings) : M unit :=
  (fun w => (Return tt, set_driver_calls (driver_calls w ++ [CallConnect s]) w)) ;;
  (fun w =>
     match env_connect_error (env w) with
     | Some e => (Raise e, w)
     | None => (Return tt, set_connection (Some s) w)
     end).

(** The Flask application object a caller may pass; only its configuration
    mapping is represented. *)
Record App := mk_App { app_config : list (string * string) }.

Definition init_settings : ConnSettings :=
  {| cs_db := DATABASE_NAME;
     cs_host := MONGODB_URI;
     cs_serverSelectionTimeoutMS := 5000;
     cs_connectTimeoutMS := 10000;
     cs_socketTimeoutMS := 20000;
     cs_maxPoolSize := 50;
     cs_retryWrites := true |}.

Definition init_mongodb (app : option App) : M bool :=
  try_except
    (disconnect ;;
     connect init_settings ;;
     print ("✅ Connected to MongoDB: " ++ MONGODB_URI ++ DATABASE_NAME) ;;
     ret true)
    (fun e =>
       print ("❌ MongoDB connection failed: " ++ exn_str e) ;;
       ret false).

(* ===================================================================== *)
(** * MongoEngine documents: validation, queries, save                   *)
(* ===================================================================== *)

Fixpoint bytes_eqb (a b : list Byte.byte) : bool :=
  match a, b with
  | [], [] => true
  | x :: a', y :: b' => Byte.eqb x y && bytes_eqb a' b'
  | _, _ => false
  end.

Fixpoint strings_eqb (a b : list string) : bool :=
  match a, b with
  | [], [] => true
  | x :: a', y :: b' => String.eqb x y && strings_eqb a' b'
  | _, _ => false
  end.

(** Equality of stored values, as an equality query compares them. *)
Definition pyval_eqb (a b : pyval) : bool :=
  match a, b with
  | PNone, PNone => true
  | PBool x, PBool y => Bool.eqb x y
  | PInt x, PInt y => Z.eqb x y
  | PFloat x, PFloat y => PrimFloat.eqb x y
  | PStr x, PStr y => String.eqb x y
  | PStrList x, PStrList y => strings_eqb x y
  | PDatetime x, PDatetime y =>
      match datetime_compare x y with Eq => true | _ => false end
  | PObjectId x, PObjectId y => bytes_eqb x y
  | _, _ => false
  end.

Definition id_eqb (a b : option ObjectId) : bool :=
  match a, b with
  | Some x, Some y => bytes_eqb x y
  | None, None => true
  | _, _ => false
  end.

(** What every [Document] subclass of the module provides. *)
Class DocumentClass (D : Type) := {
  collection_name : string;                (* meta['collection'] *)
  doc_indexes : list string;               (* meta['indexes'] *)
  doc_fields : list Field;
  doc_data : D -> dict;
  doc_id : D -> option ObjectId;
  doc_set_id : option ObjectId -> D -> D;
  to_dict : D -> dict;
  objects : World -> list D;               (* the stored collection *)
  set_objects : list D -> World -> World
}.

Definition User_set_id (i : option ObjectId) (self : User) : User :=
  mk_User i (User_username self) (User_email self) (User_password_hash self)
    (User_first_name self) (User_last_name self) (User_phone self)
    (User_date_of_birth self) (User_is_active self) (User_created_at self)
    (User_last_login self).

Definition Medication_set_id (i : option ObjectId) (self : Medication) : Medication :=
  mk_Medication i (Medication_user_id self) (Medication_user_username self)
    (Medication_name self) (Medication_dosage self) (Medication_frequency self)
    (Medication_instructions self) (Medication_duration self)
    (Medication_start_date self) (Medication_end_date self)
    (Medication_is_active self) (Medication_created_at self)
    (Medication_updated_at self) (Medication_source self)
    (Medication_confidence_score self).

Definition Reminder_set_id (i : option ObjectId) (self : Reminder) : Reminder :=
  mk_Reminder i (Reminder_medication_id self) (Reminder_user_id self)
    (Reminder_time self) (Reminder_days_of_week self) (Reminder_is_active self)
    (Reminder_last_sent self) (Reminder_next_due self) (Reminder_created_at self)
    (Reminder_updated_at self).

Definition MedicationLog_set_id (i : option ObjectId) (self : MedicationLog)
  : MedicationLog :=
  mk_MedicationLog i (MedicationLog_user_id self) (MedicationLog_medication_id self)
    (MedicationLog_taken_at self) (MedicationLog_dosage_taken self)
    (MedicationLog_notes self) (MedicationLog_status self)
    (MedicationLog_reminder_id self) (MedicationLog_created_at self).

Definition PrescriptionUpload_set_id (i : option ObjectId) (self : PrescriptionUpload)
  : PrescriptionUpload :=
  mk_PrescriptionUpload i (PrescriptionUpload_user_id self)
    (PrescriptionUpload_filename self) (PrescriptionUpload_original_filename self)
    (PrescriptionUpload_file_path self) (PrescriptionUpload_file_size self)
    (PrescriptionUpload_mime_type self) (PrescriptionUpload_extracted_text self)
    (PrescriptionUpload_ocr_confidence self) (PrescriptionUpload_processing_time self)
    (PrescriptionUpload_medications_found self)
    (PrescriptionUpload_medications_added self)
    (PrescriptionUpload_processing_status self)
    (PrescriptionUpload_error_message self) (PrescriptionUpload_uploaded_at self)
    (PrescriptionUpload_processed_at self).

#[export] Instance User_Document : DocumentClass User := {
  collection_name := "users";
  doc_indexes := ["username"; "email"];
  doc_fields := User_fields;
  doc_data := User_data;
  doc_id := User_id;
  doc_set_id := User_set_id;
  to_dict := User_to_dict;
  objects := users;
  set_objects := set_users
}.

#[export] Instance Medication_Document : DocumentClass Medication := {
  collection_name := "medications";
  doc_indexes := ["user_id"; "user_username"; "name"; "is_active"];
  doc_fields := Medication_fields;
  doc_data := Medication_data;
  doc_id := Medication_id;
  doc_set_id := Medication_set_id;
  to_dict := Medication_to_dict;
  objects := medications;
  set_objects := set_medications
}.

#[export] Instance Reminder_Document : DocumentClass Reminder := {
  collection_name := "reminders";
  doc_indexes := ["user_id"; "medication_id"; "is_active"; "next_due"];
  doc_fields := Reminder_fields;
  doc_data := Reminder_data;
  doc_id := Reminder_id;
  doc_set_id := Reminder_set_id;
  to_dict := Reminder_to_dict;
  objects := reminders;
  set_objects := set_reminders
}.

#[export] Instance MedicationLog_Document : DocumentClass MedicationLog := {
  collection_name := "medication_logs";
  doc_indexes := ["user_id"; "medication_id"; "taken_at"; "status"];
  doc_fields := MedicationLog_fields;
  doc_data := MedicationLog_data;
  doc_id := MedicationLog_id;
  doc_set_id := MedicationLog_set_id;
  to_dict := MedicationLog_to_dict;
  objects := medication_logs;
  set_objects := set_medication_logs
}.

#[export] Instance PrescriptionUpload_Document : DocumentClass PrescriptionUpload := {
  collection_name := "prescription_uploads";
  doc_indexes := ["user_id"; "uploaded_at"; "processing_status"];
  doc_fields := PrescriptionUpload_fields;
  doc_data := PrescriptionUpload_data;
  doc_id := PrescriptionUpload_id;
  doc_set_id := PrescriptionUpload_set_id;
  to_dict := PrescriptionUpload_to_dict;
  objects := prescription_uploads;
  set_objects := set_prescription_uploads
}.

(** ** Validation ([BaseDocument.validate]) *)

Definition type_accepts (t : FieldType) (v : pyval) : bool :=
  match t, v with
  | StringField, PStr _ => true
  | EmailField, PStr _ => true
  | DateTimeField, PDatetime _ => true
  | BooleanField, PBool _ => true
  | ObjectIdField, PObjectId _ => true
  | FloatField, PFloat _ => true
  | FloatField, PInt _ => true
  | IntField, PInt _ => true
  | ListField, PStrList _ => true
  | _, _ => false
  end.

Definition in_choices (c : list string) (v : pyval) : bool :=
  match v with
  | PStr s => existsb (String.eqb s) c
  | _ => false
  end.

(** [len(value)]: the characters of a [str], that is the bytes of its
    UTF-8 encoding that do not continue a character ([10xxxxxx]). *)
Definition is_continuation (c : ascii) : bool :=
  (128 <=? N_of_ascii c) && (N_of_ascii c <? 192).

Fixpoint py_len (s : string) : nat :=
  match s with
  | EmptyString => 0
  | String c r => if is_continuation c then py_len r else S (py_len r)
  end.

Definition too_long (f : Field) (s : string) : bool :=
  match f_max_length f with
  | Some k => Nat.ltb k (py_len s)
  | None => false
  end.

(** The check of one value that is not [None]; [Some msg] is the error. *)
Definition choice_error (f : Field) (v : pyval) : option string :=
  match f_choices f with
  | Some c =>
      if in_choices c v then None else Some "Value must be one of the choices"
  | None => None
  end.

Definition validate_value (email_ok : string -> bool) (f : Field) (v : pyval)
  : option string :=
  match choice_error f v with
  | Some msg => Some msg
  | None =>
      if negb (type_accepts (f_type f) v) then Some "Value has the wrong type"
      else
        match f_type f, v with
        | EmailField, PStr s =>
            if negb (email_ok s) then Some "Invalid email address"
            else if too_long f s then Some "String value is too long"
            else None
        | StringField, PStr s =>
            if too_long f s then Some "String value is too long" else None
        | _, _ => None
        end
  end.

(** The error of one declared field, if any: a value that is [None] is
    only an error for a required field. *)
Definition validate_field (email_ok : string -> bool) (data : dict) (f : Field)
  : list (string * string) :=
  match dict_get (f_name f) data with
  | None | Some PNone =>
      if f_required f then [(f_name f, "Field is required")] else []
  | Some v =>
      match validate_value email_ok f v with
      | Some msg => [(f_name f, msg)]
      | None => []
      end
  end.

Definition validate {D} `{DocumentClass D} (email_ok : string -> bool) (self : D)
  : list (string * string) :=
  flat_map (validate_field email_ok (doc_data self)) doc_fields.

(** ** Queries *)

(** [Cls.objects.count()] *)
Definition objects_count (D : Type) `{DocumentClass D} : M nat :=
  round_trip ;;
  fun w => (Return (length (objects (D:=D) w)), w).

Definition field_value {D} `{DocumentClass D} (k : string) (d : D) : pyval :=
  match dict_get k (doc_data d) with
  | Some v => v
  | None => PNone
  end.

(** [Cls.objects(k=v).first()] *)
Definition objects_first (D : Type) `{DocumentClass D} (k : string) (v : pyval)
  : M (option D) :=
  round_trip ;;
  fun w => (Return (find (fun d => pyval_eqb (field_value k d) v) (objects w)), w).

(** ** Saving ([Document.save]) *)

Definition unique_names {D} `{DocumentClass D} : list string :=
  map f_name (filter f_unique (doc_fields (D:=D))).

(** Another stored document holds the same value in a unique field. *)
Definition unique_conflict {D} `{DocumentClass D} (self : D) (stored : list D) : bool :=
  existsb
    (fun d =>
       negb (id_eqb (doc_id d) (doc_id self)) &&
       existsb (fun k => pyval_eqb (field_value k d) (field_value k self))
         unique_names)
    stored.

Fixpoint replace_by_id {D} `{DocumentClass D} (self : D) (stored : list D)
  : option (list D) :=
  match stored with
  | [] => None
  | d :: rest =>
      if id_eqb (doc_id d) (doc_id self) then Some (self :: rest)
      else
        match replace_by_id self rest with
        | Some rest' => Some (d :: rest')
        | None => None
        end
  end.

(** Write [self] under its identifier: overwrite the stored document that
    has it, insert otherwise. *)
Definition upsert {D} `{DocumentClass D} (self : D) (stored : list D) : list D :=
  match replace_by_id self stored with
  | Some stored' => stored'
  | None => stored ++ [self]
  end.

(** The stored document with the identifier [i], if any. *)
Definition has_id {D} `{DocumentClass D} (i : ObjectId) (stored : list D) : bool :=
  existsb (fun d => id_eqb (doc_id d) (Some i)) stored.

(** [Document.save()] of a record built in memory: validate, then write.
    A document without an identifier is inserted under a fresh one; a
    document with an identifier overwrites the stored document that has
    it, or is inserted. A duplicate key on [_id] or on a unique index
    raises [NotUniqueError]. [self] changes only when the write
    succeeded. *)
Definition Document_save {D} `{DocumentClass D} : Method D unit :=
  fun self w =>
    match validate (email_valid (env w)) self with
    | (_ :: _) as errors => (self, Raise (ValidationError errors), w)
    | [] =>
        match round_trip w with
        | (Raise e, w1) => (self, Raise e, w1)
        | (Return _, w1) =>
            match doc_id self with
            | None =>
                let i := env_oid (env w1) (n_oid w1) in
                let w2 := set_n_oid (S (n_oid w1)) w1 in
                let self1 := doc_set_id (Some i) self in
                if has_id i (objects w2) || unique_conflict self1 (objects w2)
                then (self, Raise (NotUniqueError "Tried to save duplicate unique keys"), w2)
                else (self1, Return tt, set_objects (objects w2 ++ [self1]) w2)
            | Some _ =>
                if unique_conflict self (objects w1)
                then (self, Raise (NotUniqueError "Tried to save duplicate unique keys"), w1)
                else (self, Return tt, set_objects (upsert self (objects w1)) w1)
            end
        end
    end.

(* ===================================================================== *)
(** * Passwords (werkzeug.security)                                      *)
(* ===================================================================== *)

(** [s.split(sep, 1)] when [sep] occurs in [s]. *)
Fixpoint split_once (sep : ascii) (s : string) : option (string * string) :=
  match s with
  | EmptyString => None
  | String c r =>
      if Ascii.eqb c sep then Some (EmptyString, r)
      else
        match split_once sep r with
        | Some (a, b) => Some (String c a, b)
        | None => None
        end
  end.

(** [generate_password_hash(password)]: draws a salt and returns
    [method$salt$digest]. *)
Definition generate_password_hash (password : string) : M string :=
  salt <- gen_salt ;;
  fun w =>
    (Return (werkzeug_method (env w) ++ "$" ++ salt ++ "$" ++
             werkzeug_hash (env w) (werkzeug_method (env w)) salt password), w).

(** [check_password_hash(pwhash, password)]: [pwhash.split("$", 2)] must
    give three parts; the digest is recomputed and compared. *)
Definition check_password_hash (e : Env) (pwhash password : string) : bool :=
  match split_once "$" pwhash with
  | Some (method, rest) =>
      match split_once "$" rest with
      | Some (salt, hashval) => String.eqb (werkzeug_hash e method salt password) hashval
      | None => false
      end
  | None => false
  end.

Definition User_set_password_hash (h : option string) (self : User) : User :=
  mk_User (User_id self) (User_username self) (User_email self) h
    (User_first_name self) (User_last_name self) (User_phone self)
    (User_date_of_birth self) (User_is_active self) (User_created_at self)
    (User_last_login self).

(** [User.set_password]: returns the user after the assignment. *)
Definition User_set_password (self : User) (password : string) : M User :=
  h <- generate_password_hash password ;;
  ret (User_set_password_hash (Some h) self).

Definition User_check_password (self : User) (password : string) : M bool :=
  fun w =>
    match User_password_hash self with
    | Some h => (Return (check_password_hash (env w) h password), w)
    | None =>
        (Raise (AttributeError "'NoneType' object has no attribute 'split'"), w)
    end.

(* ===================================================================== *)
(** * The save overrides                                                 *)
(* ===================================================================== *)

Definition Medication_set_updated_at (t : option datetime) (self : Medication)
  : Medication :=
  mk_Medication (Medication_id self) (Medication_user_id self)
    (Medication_user_username self) (Medication_name self) (Medication_dosage self)
    (Medication_frequency self) (Medication_instructions self)
    (Medication_duration self) (Medication_start_date self)
    (Medication_end_date self) (Medication_is_active self)
    (Medication_created_at self) t (Medication_source self)
    (Medication_confidence_score self).

Definition Reminder_set_updated_at (t : option datetime) (self : Reminder) : Reminder :=
  mk_Reminder (Reminder_id self) (Reminder_medication_id self) (Reminder_user_id self)
    (Reminder_time self) (Reminder_days_of_week self) (Reminder_is_active self)
    (Reminder_last_sent self) (Reminder_next_due self) (Reminder_created_at self) t.

(** [Medication.save]: [self.updated_at = datetime.utcnow()], then
    [super().save()]. *)
Definition Medication_save : Method Medication unit :=
  fun self w =>
    let now := env_clock (env w) (n_clock w) in
    let w1 := set_n_clock (S (n_clock w)) w in
    Document_save (Medication_set_updated_at (Some now) self) w1.

Definition Reminder_save : Method Reminder unit :=
  fun self w =>
    let now := env_clock (env w) (n_clock w) in
    let w1 := set_n_clock (S (n_clock w)) w in
    Document_save (Reminder_set_updated_at (Some now) self) w1.

(* ===================================================================== *)
(** * Maintenance utilities                                              *)
(* ===================================================================== *)

Record SeedUser := mk_SeedUser {
  seed_username : string;
  seed_email : string;
  seed_password : string;
  seed_first_name : string;
  seed_last_name : string
}.

Definition default_users : list SeedUser :=
  [ mk_SeedUser "testuser" "testuser@example.com" "testpass123" "Test" "User";
    mk_SeedUser "karthikrai390@gmail.com" "karthikrai390@gmail.com" "123456"
      "Karthik" "Rai" ].

(** [User(username=.., email=.., first_name=.., last_name=.., is_active=True)]:
    the other fields take their defaults, [created_at] from the clock. *)
Definition new_seed_User (user_data : SeedUser) : M User :=
  now <- utcnow ;;
  ret (mk_User None (Some (seed_username user_data)) (Some (seed_email user_data))
         None (Some (seed_first_name user_data)) (Some (seed_last_name user_data))
         None None (Some true) (Some now) None).

(** The body of the loop, for one entry of [default_users]. *)
Definition create_default_user (user_data : SeedUser) (created_count : nat) : M nat :=
  existing_user <- objects_first User "username" (PStr (seed_username user_data)) ;;
  match existing_user with
  | Some _ => ret created_count
  | None =>
      user <- new_seed_User user_data ;;
      user <- User_set_password user (seed_password user_data) ;;
      _ <- call Document_save user ;;
      print ("✅ Created MongoDB user: " ++ seed_username user_data) ;;
      ret (S created_count)
  end.

Fixpoint create_default_users_loop (l : list SeedUser) (created_count : nat) : M nat :=
  match l with
  | [] => ret created_count
  | user_data :: rest =>
      created_count <- create_default_user user_data created_count ;;
      create_default_users_loop rest created_count
  end.

Definition create_default_users : M bool :=
  try_except
    (created_count <- create_default_users_loop default_users 0%nat ;;
     (if Nat.eqb created_count 0
      then print "ℹ️ All default users already exist in MongoDB"
      else ret tt) ;;
     ret true)
    (fun e =>
       print ("❌ Error creating default users: " ++ exn_str e) ;;
       ret false).

(** [get_database_stats]: the five counts, or [None]. *)
Definition get_database_stats : M (option (list (string * nat))) :=
  try_except
    (n_users <- objects_count User ;;
     n_medications <- objects_count Medication ;;
     n_reminders <- objects_count Reminder ;;
     n_medication_logs <- objects_count MedicationLog ;;
     n_prescription_uploads <- objects_count PrescriptionUpload ;;
     ret (Some [ ("users", n_users);
                 ("medications", n_medications);
                 ("reminders", n_reminders);
                 ("medication_logs", n_medication_logs);
                 ("prescription_uploads", n_prescription_uploads) ]))
    (fun e =>
       print ("❌ Error getting database stats: " ++ exn_str e) ;;
       ret None).

(* ===================================================================== *)
(** * A record of any of the five entity types                           *)
(* ===================================================================== *)

Inductive Entity :=
| AUser (u : User)
| AMedication (m : Medication)
| AReminder (r : Reminder)
| AMedicationLog (l : MedicationLog)
| APrescriptionUpload (p : PrescriptionUpload).

Definition serialize (e : Entity) : dict :=
  match e with
  | AUser u => to_dict u
  | AMedication m => to_dict m
  | AReminder r => to_dict r
  | AMedicationLog l => to_dict l
  | APrescriptionUpload p => to_dict p
  end.

Definition declared_fields (e : Entity) : list Field :=
  match e with
  | AUser _ => doc_fields (D:=User)
  | AMedication _ => doc_fields (D:=Medication)
  | AReminder _ => doc_fields (D:=Reminder)
  | AMedicationLog _ => doc_fields (D:=MedicationLog)
  | APrescriptionUpload _ => doc_fields (D:=PrescriptionUpload)
  end.

Definition stored_data (e : Entity) : dict :=
  match e with
  | AUser u => doc_data u
  | AMedication m => doc_data m
  | AReminder r => doc_data r
  | AMedicationLog l => doc_data l
  | APrescriptionUpload p => doc_data p
  end.

Definition stored_value (e : Entity) (k : string) : pyval :=
  match dict_get k (stored_data e) with
  | Some v => v
  | None => PNone
  end.

(** The declared fields that [to_dict] leaves out. *)
Definition not_serialized (e : Entity) : list string :=
  match e with
  | AUser _ => ["password_hash"]
  | AMedication _ => ["user_username"]
  | AReminder _ => []
  | AMedicationLog _ => []
  | APrescriptionUpload _ => ["file_path"]
  end.

(** The identifier fields that [to_dict] renders as null when unset. *)
Definition null_when_unset (e : Entity) : list string :=
  match e with
  | AMedicationLog _ => ["reminder_id"]
  | _ => []
  end.

Definition mem_string (k : string) (l : list string) : bool :=
  existsb (String.eqb k) l.

(** How [to_dict] renders the stored value of a declared field. *)
Definition rendering (e : Entity) (f : Field) (stored : pyval) : pyval :=
  match f_type f, stored with
  | ObjectIdField, PObjectId o => PStr (ObjectId_str o)
  | ObjectIdField, _ =>
      if mem_string (f_name f) (null_when_unset e) then PNone else PStr "None"
  | DateTimeField, PDatetime d => PStr (isoformat d)
  | DateTimeField, _ => PNone
  | _, v => v
  end.

(** The serialisation rule in the specification's words: an identifier
    field is rendered as a string, a timestamp field as its ISO-8601 string
    or null, any other stored field unchanged, each under its own name. *)
Definition serialized_as_specified (f : Field) (stored : pyval) (out : option pyval)
  : Prop :=
  match f_type f with
  | ObjectIdField => exists s, out = Some (PStr s)
  | DateTimeField =>
      out = Some (match stored with PDatetime d => PStr (isoformat d) | _ => PNone end)
  | _ => out = Some stored
  end.

Definition serialize_as_specified (e : Entity) : Prop :=
  forall f, In f (declared_fields e) ->
    serialized_as_specified f (stored_value e (f_name f))
      (dict_get (f_name f) (serialize e)).

Definition is_raw_object (v : pyval) : bool :=
  match v with
  | PDatetime _ | PObjectId _ => true
  | _ => false
  end.

(** A rendered timestamp: null, or a string of ISO-8601 shape. *)
Definition iso_or_null (v : pyval) : bool :=
  match v with
  | PNone => true
  | PStr s => is_iso8601 s
  | _ => false
  end.

Definition timestamp_names (e : Entity) : list string :=
  map f_name
    (filter (fun f => match f_type f with DateTimeField => true | _ => false end)
       (declared_fields e)).

(** ** Sample records *)

Definition oid_1 : ObjectId :=
  [Byte.x65; Byte.x4a; Byte.x1b; Byte.x2c; Byte.x3d; Byte.x4e;
   Byte.x5f; Byte.x60; Byte.x71; Byte.x82; Byte.x93; Byte.xa4].

Definition oid_2 : ObjectId :=
  [Byte.x65; Byte.x4a; Byte.x1b; Byte.x2c; Byte.x3d; Byte.x4e;
   Byte.x5f; Byte.x60; Byte.x71; Byte.x82; Byte.x93; Byte.xa5].

Definition t_2026 : datetime := mk_datetime 2026 11 3 9 30 0 0 eq_refl.
Definition t_2030 : datetime := mk_datetime 2030 1 1 0 0 0 0 eq_refl.

Definition alice : User :=
  mk_User (Some oid_1) (Some "alice") (Some "alice@x.com")
    (Some "scrypt:32768:8:1$c2FsdA$00ff") (Some "Alice") None None None
    (Some true) (Some t_2026) None.

Definition aspirin : Medication :=
  mk_Medication None (Some oid_1) (Some "alice") (Some "Aspirin") (Some "100mg")
    (Some "daily") None None (Some t_2026) None (Some true) (Some t_2026)
    (Some t_2030) (Some "manual") (Some 1%float).

Definition morning : Reminder :=
  mk_Reminder None (Some oid_2) (Some oid_1) (Some "08:00") (Some all_weekdays)
    (Some true) None None (Some t_2026) (Some t_2030).

Definition aspirin_taken : MedicationLog :=
  mk_MedicationLog None (Some oid_1) (Some oid_2) (Some t_2026) (Some "100mg") None
    (Some "taken") None (Some t_2026).

Definition scan : PrescriptionUpload :=
  mk_PrescriptionUpload None (Some oid_1) (Some "rx.png") (Some "scan 1.png")
    (Some "/uploads/rx.png") (Some 2048%Z) (Some "image/png") None None None
    (Some 0%Z) (Some 0%Z) (Some "pending") None (Some t_2026) None.

(** ** A sample environment and sample worlds *)

(** Stands for Werkzeug's digest in the sample environment. *)
Definition sample_digest (method salt password : string) : string := password.

Definition sample_oid (k : nat) : ObjectId :=
  (repeat Byte.x00 11 ++
   [match Byte.of_N (N.of_nat k) with Some b => b | None => Byte.xff end])%list.

Definition sample_env : Env :=
  {| env_clock := fun _ => t_2026;
     env_salt := fun _ => "c2FsdHNhbHQ";
     env_oid := sample_oid;
     env_connect_error := None;
     env_fault := fun _ => None;
     werkzeug_method := "scrypt:32768:8:1";
     werkzeug_hash := sample_digest;
     email_valid := fun s => match split_once "@" s with Some _ => true | None => false end |}.

(** No connection, empty collections. *)
Definition fresh_world : World :=
  mk_World sample_env 0 0 0 0 None [] [] [] [] [] [] [].

(** Connected, empty collections. *)
Definition connected_world : World := set_connection (Some init_settings) fresh_world.

(** A stored user who holds the first seed's e-mail address under another
    username. *)
Definition bob : User :=
  mk_User (Some oid_2) (Some "bob") (Some "testuser@example.com")
    (Some "scrypt:32768:8:1$c2FsdA$00ff") None None None None
    (Some true) (Some t_2026) None.

Definition world_with_bob : World := set_users [bob] connected_world.

(** A stored user who holds the first seed's username. *)
Definition dave : User :=
  mk_User (Some oid_2) (Some "testuser") (Some "dave@example.com")
    (Some "scrypt:32768:8:1$c2FsdA$00ff") None None None None
    (Some true) (Some t_2026) None.

Definition world_with_testuser : World := set_users [dave] connected_world.

(** An application object configured for another server. *)
Definition remote_app : App :=
  mk_App [ ("MONGODB_URI", "mongodb://db.example.com:27017/");
           ("DATABASE_NAME", "medimorph_prod") ].

(* ===================================================================== *)
(** * The properties in the specification's words                        *)
(* ===================================================================== *)

(** [updated_at] after a call is not earlier than before it. *)
Definition not_earlier (before after : option datetime) : bool :=
  match before, after with
  | Some b, Some a => datetime_leb b a
  | Some _, None => false
  | None, _ => true
  end.

(** The connection opened by [init_mongodb app] goes to the address the
    caller supplied in [app]. *)
Definition connects_to_supplied_address (app : App) (w : World) : Prop :=
  forall host s,
    In ("MONGODB_URI", host) (app_config app) ->
    In (CallConnect s) (driver_calls (snd (init_mongodb (Some app) w))) ->
    cs_host s = host.

Definition has_username (name : string) (u : User) : bool :=
  pyval_eqb (field_value "username" u) (PStr name).

(** No user of [stored] has the username of the seed entry [sd]. *)
Definition is_missing (stored : list User) (sd : SeedUser) : bool :=
  negb (existsb (has_username (seed_username sd)) stored).

(** The seed entries whose username no stored user has. *)
Definition missing_seeds (w : World) : list SeedUser :=
  filter (is_missing (users w)) default_users.

(** A run from [w] creates exactly the missing seed users. *)
Definition creates_missing_seeds (w : World) : Prop :=
  length (users (snd (create_default_users w))) =
  (length (users w) + length (missing_seeds w))%nat.

(** The string [generate_password_hash] builds from a salt. *)
Definition hash_string (e : Env) (salt password : string) : string :=
  werkzeug_method e ++ "$" ++ salt ++ "$" ++
  werkzeug_hash e (werkzeug_method e) salt password.

(** [u] is the user the seeding creates for the entry [sd]. *)
Definition seeded_from (e : Env) (sd : SeedUser) (u : User) : Prop :=
  User_username u = Some (seed_username sd) /\
  User_email u = Some (seed_email sd) /\
  User_first_name u = Some (seed_first_name sd) /\
  User_last_name u = Some (seed_last_name sd) /\
  User_is_active u = Some true /\
  exists salt, User_password_hash u = Some (hash_string e salt (seed_password sd)).

Definition has_email (addr : string) (u : User) : bool :=
  pyval_eqb (field_value "email" u) (PStr addr).

(** No stored user holds the e-mail address of a seed entry whose username
    is missing. *)
Definition seed_emails_free (w : World) : Prop :=
  forall sd, In sd (missing_seeds w) ->
    existsb (has_email (seed_email sd)) (users w) = false.

(** The database answers: a connection is registered and no operation on
    the server raises. *)
Definition database_answers (w : World) : Prop :=
  connection w <> None /\ forall k, env_fault (env w) k = None.

(** The seed entries pass validation: their e-mail addresses are accepted,
    and the hash generated for their passwords, whatever the salt, is
    within the 200 characters of [password_hash]. *)
Definition seeds_are_valid (e : Env) : Prop :=
  forall sd, In sd default_users ->
    email_valid e (seed_email sd) = true /\
    forall k, Nat.leb (py_len (hash_string e (env_salt e k) (seed_password sd))) 200 = true.

(** The next two identifiers the driver generates are new: no stored user
    has them and they differ. *)
Definition next_ids_are_new (w : World) : Prop :=
  has_id (env_oid (env w) (n_oid w)) (users w) = false /\
  has_id (env_oid (env w) (S (n_oid w))) (users w) = false /\
  env_oid (env w) (n_oid w) <> env_oid (env w) (S (n_oid w)).

(** After [set_password p] on [u], [check_password] returns false for
    every plaintext other than [p]. *)
Definition rejects_other_passwords (u : User) (p : string) (w : World) : Prop :=
  forall u' w' q,
    User_set_password u p w = (Return u', w') -> q <> p ->
    User_check_password u' q w' = (Return false, w').

Fixpoint contains_char (c : ascii) (s : string) : bool :=
  match s with
  | EmptyString => false
  | String c' r => Ascii.eqb c' c || contains_char c r
  end.

Definition stats_keys : list string :=
  ["users"; "medications"; "reminders"; "medication_logs"; "prescription_uploads"].

(** None of the five driver operations of [get_database_stats], the
    [k]-th to the [k+4]-th, raises. *)
Definition no_fault_in_five (e : Env) (k : nat) : bool :=
  forallb (fun i => match env_fault e i with None => true | Some _ => false end)
    [k; S k; S (S k); S (S (S k)); S (S (S (S k)))].

(* ===================================================================== *)
(** * The connection probe                                               *)
(* ===================================================================== *)

(** What the server answers to the probe, and how Python prints a list of
    names ([repr] of a list of [str]); both come from outside the module. *)
Record ProbeReplies := mk_ProbeReplies {
  reply_database_names : list string;      (* client.list_database_names() *)
  reply_collection_names : list string;    (* db.list_collection_names() *)
  repr_names : list string -> string
}.

(** [test_mongodb_connection]: a client of its own, a ping, the two
    listings, then [close]; each of the five is an operation of the driver
    and may raise. The registered default connection is not used. *)
Definition test_mongodb_connection (server : ProbeReplies) : M bool :=
  try_except
    (driver_op ;;                                   (* MongoClient(...) *)
     driver_op ;;                                   (* client.admin.command('ping') *)
     driver_op ;;                                   (* client.list_database_names() *)
     print ("📊 Available databases: " ++
            repr_names server (reply_database_names server)) ;;
     driver_op ;;                                   (* db.list_collection_names() *)
     print ("📁 Collections in " ++ DATABASE_NAME ++ ": " ++
            repr_names server (reply_collection_names server)) ;;
     driver_op ;;                                   (* client.close() *)
     ret true)
    (fun e =>
       print ("❌ MongoDB connection test failed: " ++ exn_str e) ;;
       ret false).

(* ===================================================================== *)
(** * Saving a record of any entity type                                 *)
(* ===================================================================== *)

(** [record.save()], through the override where the class has one. *)
Definition Entity_save (e : Entity) (w : World) : Entity * outcome unit * World :=
  match e with
  | AUser u =>
      let '(u', r, w') := Document_save u w in (AUser u', r, w')
  | AMedication m =>
      let '(m', r, w') := Medication_save m w in (AMedication m', r, w')
  | AReminder x =>
      let '(x', r, w') := Reminder_save x w in (AReminder x', r, w')
  | AMedicationLog l =>
      let '(l', r, w') := Document_save l w in (AMedicationLog l', r, w')
  | APrescriptionUpload p =>
      let '(p', r, w') := Document_save p w in (APrescriptionUpload p', r, w')
  end.

(** The sizes of the five collections. *)
Definition collection_sizes (w : World) : list (string * nat) :=
  [ ("users", length (users w));
    ("medications", length (medications w));
    ("reminders", length (reminders w));
    ("medication_logs", length (medication_logs w));
    ("prescription_uploads", length (prescription_uploads w)) ].

(* ===================================================================== *)
(** * Reading back what the serialisers write                            *)
(* ===================================================================== *)

(** The value of a hexadecimal digit as [ObjectId_str] writes them. *)
Definition hex_value (c : ascii) : option N :=
  let n := N_of_ascii c in
  if (48 <=? n) && (n <=? 57) then Some (n - 48)
  else if (97 <=? n) && (n <=? 102) then Some (n - 87)
  else None.

Fixpoint ObjectId_of_str (s : string) : option ObjectId :=
  match s with
  | EmptyString => Some []
  | String c1 (String c2 r) =>
      match hex_value c1, hex_value c2, ObjectId_of_str r with
      | Some hi, Some lo, Some o =>
          match Byte.of_N (16 * hi + lo) with
          | Some b => Some (b :: o)
          | None => None
          end
      | _, _, _ => None
      end
  | String _ EmptyString => None
  end.

(** Reads [k] decimal digits: their value after [acc], and the rest. *)
Fixpoint read_digits (k : nat) (acc : N) (s : string) : option (N * string) :=
  match k with
  | O => Some (acc, s)
  | S k' =>
      match s with
      | String c r =>
          if is_digit c then read_digits k' (10 * acc + (N_of_ascii c - 48)) r
          else None
      | EmptyString => None
      end
  end.

(** The seven components of a string written by [isoformat]. *)
Definition parse_iso (s : string) : option (list N) :=
  and_then (read_digits 4 0 s) (fun '(y, s) =>
  and_then (eat_char "-" s) (fun s =>
  and_then (read_digits 2 0 s) (fun '(mo, s) =>
  and_then (eat_char "-" s) (fun s =>
  and_then (read_digits 2 0 s) (fun '(d, s) =>
  and_then (eat_char "T" s) (fun s =>
  and_then (read_digits 2 0 s) (fun '(h, s) =>
  and_then (eat_char ":" s) (fun s =>
  and_then (read_digits 2 0 s) (fun '(mi, s) =>
  and_then (eat_char ":" s) (fun s =>
  and_then (read_digits 2 0 s) (fun '(sec, s) =>
  match s with
  | EmptyString => Some [y; mo; d; h; mi; sec; 0]
  | _ =>
      and_then (eat_char "." s) (fun s =>
      and_then (read_digits 6 0 s) (fun '(us, s) =>
      match s with
      | EmptyString => Some [y; mo; d; h; mi; sec; us]
      | _ => None
      end))
  end))))))))))).

(** The stored fields of a record that its [to_dict] exposes. *)
Definition exposed_data (e : Entity) : dict :=
  filter (fun kv => negb (mem_string (fst kv) (not_serialized e))) (stored_data e).

(* ===================================================================== *)
(** * Further sample worlds                                              *)
(* ===================================================================== *)

(** An environment whose server is unreachable: every operation on the
    server raises. *)
Definition unreachable_env : Env :=
  {| env_clock := env_clock sample_env;
     env_salt := env_salt sample_env;
     env_oid := env_oid sample_env;
     env_connect_error := None;
     env_fault := fun _ => Some (PyMongoError "localhost:27017: [Errno 111] Connection refused");
     werkzeug_method := werkzeug_method sample_env;
     werkzeug_hash := werkzeug_hash sample_env;
     email_valid := email_valid sample_env |}.

Definition unreachable_world : World :=
  mk_World unreachable_env 0 0 0 0 None [] [] [] [] [] [] [].

Definition sample_replies : ProbeReplies :=
  {| reply_database_names := ["admin"; "config"; "local"; "medimorph_db"];
     reply_collection_names := ["users"; "medications"];
     repr_names := fun l => "[" ++ String.concat ", " (map (fun s => "'" ++ s ++ "'") l) ++ "]" |}.

(** A user about to be inserted who reuses bob's e-mail address. *)
Definition carol : User :=
  mk_User None (Some "carol") (Some "testuser@example.com")
    (Some "scrypt:32768:8:1$c2FsdA$00ff") None None None None
    (Some true) (Some t_2026) None.

(** [u] was created by the seeding for [sd], with a salt drawn from [e]. *)
Definition seeded_at (e : Env) (sd : SeedUser) (u : User) : Prop :=
  User_username u = Some (seed_username sd) /\
  User_is_active u = Some true /\
  exists k, User_password_hash u = Some (hash_string e (env_salt e k) (seed_password sd)).

Definition is_none {A} (x : option A) : bool :=
  match x with None => true | Some _ => false end.

(** The collection a record is saved to, and the identifier it holds. *)
Definition entity_collection (e : Entity) : string :=
  match e with
  | AUser _ => collection_name (D:=User)
  | AMedication _ => collection_name (D:=Medication)
  | AReminder _ => collection_name (D:=Reminder)
  | AMedicationLog _ => collection_name (D:=MedicationLog)
  | APrescriptionUpload _ => collection_name (D:=PrescriptionUpload)
  end.

Definition entity_id (e : Entity) : option ObjectId :=
  match e with
  | AUser u => doc_id u
  | AMedication m => doc_id m
  | AReminder r => doc_id r
  | AMedicationLog l => doc_id l
  | APrescriptionUpload p => doc_id p
  end.

(** BSON holds integers of at most eight bytes: the integers of a record
    are within that range. *)
Definition fits_int64 (v : pyval) : bool :=
  match v with
  | PInt z => ((- 2 ^ 63 <=? z) && (z <? 2 ^ 63))%Z
  | _ => true
  end.

Definition ints_fit (e : Entity) : bool :=
  forallb (fun kv => fits_int64 (snd kv)) (stored_data e).

(** The five collections hold the same documents in [w] and [w']. *)
Definition same_collections (w w' : World) : Prop :=
  users w' = users w /\ medications w' = medications w /\
  reminders w' = reminders w /\ medication_logs w' = medication_logs w /\
  prescription_uploads w' = prescription_uploads w.

(** [sizes] with [n] added to the entry of the collection [k]. *)
Definition add_to_size (k : string) (n : nat) (sizes : list (string * nat))
  : list (string * nat) :=
  map (fun kn => if String.eqb (fst kn) k then (fst kn, (snd kn + n)%nat) else kn) sizes.

(** A medication without a name. *)
Definition nameless : Medication :=
  mk_Medication None (Some oid_1) (Some "alice") None (Some "100mg")
    (Some "daily") None None (Some t_2026) None (Some true) (Some t_2026)
    (Some t_2026) (Some "manual") (Some 1%float).

(** A user whose first name has 51 characters, each of two bytes, and a
    first name of 50 such characters (100 bytes). *)
Fixpoint repeat_string (k : nat) (s : string) : string :=
  match k with
  | O => ""
  | S k' => s ++ repeat_string k' s
  end.

Definition accented_name : string := repeat_string 51 "é".

Definition accented_user : User :=
  mk_User None (Some "zoe") (Some "zoe@example.com")
    (Some "scrypt:32768:8:1$c2FsdA$00ff") (Some accented_name) None None None
    (Some true) (Some t_2026) None.

(** ** An environment whose digest is keyed by the password

    Werkzeug's methods, scrypt and pbkdf2, use the password as the key of
    an HMAC and in no other way.  HMAC (RFC 2104) first brings its key to
    the block size of its hash, 64 bytes for SHA-256: a key longer than
    the block is replaced by its hash, and the key is then filled up with
    NUL bytes. *)
Definition HMAC_BLOCK : nat := 64.

Definition NUL : string := String Ascii.zero "".

Definition hmac_key (H : string -> string) (key : string) : string :=
  let k := if Nat.ltb HMAC_BLOCK (String.length key) then H key else key in
  k ++ repeat_string (HMAC_BLOCK - String.length k) NUL.

(** Stands for SHA-256 in the sample environment. *)
Definition sample_sha (s : string) : string := substring 0 32 s.

(** Stands for a digest of Werkzeug's kind: it reads the password through
    [hmac_key] only. *)
Definition keyed_digest (method salt password : string) : string :=
  salt ++ hmac_key sample_sha password.

Definition keyed_env : Env :=
  {| env_clock := env_clock sample_env;
     env_salt := env_salt sample_env;
     env_oid := env_oid sample_env;
     env_connect_error := None;
     env_fault := fun _ => None;
     werkzeug_method := werkzeug_method sample_env;
     werkzeug_hash := keyed_digest;
     email_valid := email_valid sample_env |}.

Definition keyed_world : World :=
  mk_World keyed_env 0 0 0 0 None [] [] [] [] [] [] [].

(** Two users that differ in identifier, username and e-mail address. *)
Definition distinct_users (a b : User) : Prop :=
  User_id a <> User_id b /\
  User_username a <> User_username b /\
  User_email a <> User_email b.

(** No two stored users share an identifier, a username or an e-mail
    address. *)
Definition users_unique (l : list User) : Prop := ForallOrdPairs distinct_users l.

(** The computation [m] keeps the property [P] of the users collection. *)
Definition keeps (P : list User -> Prop) {A} (m : M A) : Prop :=
  forall w, P (users w) -> P (users (snd (m w))).

(** [w'] has the environment, the connection and, but for the users, the
    collections of [w]. *)
Definition same_but_users (w w' : World) : Prop :=
  env w' = env w /\ connection w' = connection w /\
  medications w' = medications w /\ reminders w' = reminders w /\
  medication_logs w' = medication_logs w /\
  prescription_uploads w' = prescription_uploads w.

(** A user stored after the seeding was stored before it, or was created
    for a seed entry whose username was missing. *)
Definition kept_or_seeded (w : World) (u : User) : Prop :=
  In u (users w) \/
  exists sd, In sd default_users /\ is_missing (users w) sd = true /\
             seeded_at (env w) sd u.

(* ===================================================================== *)
(** * Rendering of numbers and timestamps                                *)
(* ===================================================================== *)

Lemma is_digit_digit_char (n : N) : is_digit (digit_char n) = true.
Proof.
  unfold is_digit, digit_char.
  assert (Hlt : n mod 10 < 10) by (apply N.mod_lt; discriminate).
  generalize dependent (n mod 10); intros k Hlt.
  rewrite N_ascii_embedding by lia.
  apply andb_true_intro; split; apply N.leb_le; lia.
Qed.

Lemma eat_digits_snoc (w : nat) (s : string) :
  eat_digits (S w) s = and_then (eat_digits w s) (eat_digits 1).
Proof.
  revert s; induction w as [|w IH]; intros s.
  - reflexivity.
  - destruct s as [|c r]; [reflexivity|].
    change (eat_digits (S (S w)) (String c r))
      with (if is_digit c then eat_digits (S w) r else None).
    change (eat_digits (S w) (String c r))
      with (if is_digit c then eat_digits w r else None).
    destruct (is_digit c); [apply IH | reflexivity].
Qed.

Lemma append_assoc (a b c : string) : (a ++ b) ++ c = a ++ (b ++ c).
Proof. induction a as [|x a IH]; simpl; [reflexivity | now rewrite IH]. Qed.

Lemma append_nil_r (a : string) : a ++ "" = a.
Proof. induction a as [|x a IH]; simpl; [reflexivity | now rewrite IH]. Qed.

Lemma eat_digits_fixed (w : nat) (n : N) (r : string) :
  eat_digits w (fixed_digits w n ++ r) = Some r.
Proof.
  revert n r; induction w as [|w IH]; intros n r.
  - reflexivity.
  - rewrite eat_digits_snoc.
    change (fixed_digits (S w) n)
      with (fixed_digits w (n / 10) ++ String (digit_char n) "").
    rewrite append_assoc, IH. simpl.
    now rewrite is_digit_digit_char.
Qed.

Lemma zpad_fixed (w : nat) (n : N) :
  n < 10 ^ N.of_nat w -> zpad w n = fixed_digits w n.
Proof. intros H. unfold zpad. now apply N.ltb_lt in H; rewrite H. Qed.

Lemma eat_digits_zpad (w : nat) (n : N) (r : string) :
  n < 10 ^ N.of_nat w -> eat_digits w (zpad w n ++ r) = Some r.
Proof. intros H. rewrite zpad_fixed by exact H. apply eat_digits_fixed. Qed.

Lemma days_in_month_le (y m : N) : days_in_month y m <= 31.
Proof.
  unfold days_in_month.
  destruct (m =? 2); [destruct (is_leap y); lia|].
  destruct ((m =? 4) || (m =? 6) || (m =? 9) || (m =? 11))%bool; lia.
Qed.

Lemma datetime_bounds (d : datetime) :
  year d < 10 ^ N.of_nat 4 /\ month d < 10 ^ N.of_nat 2 /\ day d < 10 ^ N.of_nat 2 /\
  hour d < 10 ^ N.of_nat 2 /\ minute d < 10 ^ N.of_nat 2 /\
  second d < 10 ^ N.of_nat 2 /\ microsecond d < 10 ^ N.of_nat 6.
Proof.
  destruct d as [y mo dd h mi s us ok]; simpl.
  unfold datetime_check in ok.
  repeat (apply andb_prop in ok; destruct ok as [ok ?]).
  repeat match goal with
         | H : (_ <=? _) = true |- _ => apply N.leb_le in H
         | H : (_ <? _) = true |- _ => apply N.ltb_lt in H
         end.
  pose proof (days_in_month_le y mo).
  change (10 ^ N.of_nat 4) with 10000.
  change (10 ^ N.of_nat 2) with 100.
  change (10 ^ N.of_nat 6) with 1000000.
  lia.
Qed.

(** [isoformat] always yields a string of ISO-8601 shape. *)
Lemma isoformat_is_iso8601 (d : datetime) : is_iso8601 (isoformat d) = true.
Proof.
  destruct (datetime_bounds d) as (Hy & Hmo & Hd & Hh & Hmi & Hs & Hus).
  unfold is_iso8601, isoformat.
  rewrite (eat_digits_zpad 4) by exact Hy. cbn [and_then append eat_char Ascii.eqb Bool.eqb].
  rewrite (eat_digits_zpad 2) by exact Hmo. cbn [and_then append eat_char Ascii.eqb Bool.eqb].
  rewrite (eat_digits_zpad 2) by exact Hd. cbn [and_then append eat_char Ascii.eqb Bool.eqb].
  rewrite (eat_digits_zpad 2) by exact Hh. cbn [and_then append eat_char Ascii.eqb Bool.eqb].
  rewrite (eat_digits_zpad 2) by exact Hmi. cbn [and_then append eat_char Ascii.eqb Bool.eqb].
  rewrite (eat_digits_zpad 2) by exact Hs.
  destruct (microsecond d =? 0); [reflexivity|].
  cbn [and_then append eat_char Ascii.eqb Bool.eqb].
  rewrite <- (append_nil_r (zpad 6 (microsecond d))).
  now rewrite (eat_digits_zpad 6) by exact Hus.
Qed.

Lemma iso_or_none_shape (x : option datetime) : iso_or_null (iso_or_none x) = true.
Proof. destruct x; simpl; [apply isoformat_is_iso8601 | reflexivity]. Qed.

(* ===================================================================== *)
(** * Serialisation                                                      *)
(* ===================================================================== *)

Lemma of_opt_inj {A} (c : A -> pyval) (a b : option A) :
  (forall x, c x <> PNone) -> (forall x y, c x = c y -> x = y) ->
  of_opt c a = of_opt c b -> a = b.
Proof.
  intros Hn Hi H. destruct a as [x|], b as [y|]; simpl in H.
  - f_equal. now apply Hi.
  - now apply Hn in H.
  - symmetry in H. now apply Hn in H.
  - reflexivity.
Qed.

Ltac of_opt_eqs :=
  repeat match goal with
         | H : of_opt _ _ = of_opt _ _ |- _ =>
             apply of_opt_inj in H;
             [ subst | intros ?; discriminate | intros ? ? [=]; assumption ]
         end.

Lemma User_data_inj (a b : User) : User_data a = User_data b -> a = b.
Proof.
  destruct a, b; unfold User_data; simpl; intros H.
  injection H as ?; of_opt_eqs; reflexivity.
Qed.

Lemma Medication_data_inj (a b : Medication) :
  Medication_data a = Medication_data b -> a = b.
Proof.
  destruct a, b; unfold Medication_data; simpl; intros H.
  injection H as ?; of_opt_eqs; reflexivity.
Qed.

Lemma Reminder_data_inj (a b : Reminder) : Reminder_data a = Reminder_data b -> a = b.
Proof.
  destruct a, b; unfold Reminder_data; simpl; intros H.
  injection H as ?; of_opt_eqs; reflexivity.
Qed.

Lemma MedicationLog_data_inj (a b : MedicationLog) :
  MedicationLog_data a = MedicationLog_data b -> a = b.
Proof.
  destruct a, b; unfold MedicationLog_data; simpl; intros H.
  injection H as ?; of_opt_eqs; reflexivity.
Qed.

Lemma PrescriptionUpload_data_inj (a b : PrescriptionUpload) :
  PrescriptionUpload_data a = PrescriptionUpload_data b -> a = b.
Proof.
  destruct a, b; unfold PrescriptionUpload_data; simpl; intros H.
  injection H as ?; of_opt_eqs; reflexivity.
Qed.

Lemma stored_data_inj (a b : Entity) : stored_data a = stored_data b -> a = b.
Proof.
  destruct a, b; simpl; intros H; try discriminate H; f_equal.
  - now apply User_data_inj.
  - now apply Medication_data_inj.
  - now apply Reminder_data_inj.
  - now apply MedicationLog_data_inj.
  - now apply PrescriptionUpload_data_inj.
Qed.

Lemma dict_get_In (k : string) (d : dict) (v : pyval) :
  dict_get k d = Some v -> In v (map snd d).
Proof.
  induction d as [|[k' v'] d IH]; simpl; [discriminate|].
  destruct (String.eqb k k'); [intros [= ->]; now left | right; auto].
Qed.

Ltac split_options :=
  repeat match goal with
         | |- context [match ?x with _ => _ end] => is_var x; destruct x
         end.

Lemma serialize_no_raw_object (e : Entity) (v : pyval) :
  In v (map snd (serialize e)) -> is_raw_object v = false.
Proof.
  destruct e as [[]|[]|[]|[]|[]]; cbn; intros H;
    repeat (destruct H as [<-|H];
            [ unfold of_opt, iso_or_none, str_id_or_none, str_id;
              split_options; reflexivity |]);
    destruct H.
Qed.

(** C2 (as stated) fails: [to_dict] leaves out [password_hash] of a User,
    [user_username] of a Medication and [file_path] of a PrescriptionUpload,
    and renders the unset [reminder_id] of a MedicationLog as null, not as
    a string. *)
Lemma serialize_not_as_specified :
  ~ serialize_as_specified (AUser alice) /\
  ~ serialize_as_specified (AMedication aspirin) /\
  ~ serialize_as_specified (AMedicationLog aspirin_taken) /\
  ~ serialize_as_specified (APrescriptionUpload scan).
Proof.
  repeat split; intros H.
  - specialize (H (max_length 200 (required (field "password_hash" StringField)))).
    cbn in H. discriminate H. tauto.
  - specialize (H (required (field "user_username" StringField))).
    cbn in H. discriminate H. tauto.
  - specialize (H (field "reminder_id" ObjectIdField)).
    cbn in H. destruct H as [s H]; [tauto | discriminate H].
  - specialize (H (required (field "file_path" StringField))).
    cbn in H. discriminate H. tauto.
Qed.

(** C2 (amended): for every entity type and every record, the keys of
    [to_dict] are the declared field names, in declaration order, without
    [password_hash] (User), [user_username] (Medication) and [file_path]
    (PrescriptionUpload); under each key an identifier is rendered as its
    string ([str(None)] when unset, except [reminder_id], null when unset),
    a timestamp as its ISO-8601 string when set and null when unset, and
    any other field as its stored value. *)
Theorem serialize_renders_declared_fields (e : Entity) :
  dict_keys (serialize e) =
    filter (fun k => negb (mem_string k (not_serialized e)))
      (map f_name (declared_fields e)) /\
  Forall (fun f =>
            dict_get (f_name f) (serialize e) =
              if mem_string (f_name f) (not_serialized e) then None
              else Some (rendering e f (stored_value e (f_name f))))
    (declared_fields e).
Proof.
  split.
  - destruct e; reflexivity.
  - destruct e as [[]|[]|[]|[]|[]]; cbn;
      repeat (apply Forall_cons;
              [ cbn; unfold of_opt, str_id, iso_or_none, str_id_or_none, py_str_id;
                split_options; reflexivity |]);
      apply Forall_nil.
Qed.

(** C9: [to_dict] is a function of the stored state alone (records with
    the same stored fields serialise identically), its output holds no raw
    datetime or ObjectId object, and under every timestamp field it holds
    null or a string of ISO-8601 shape. *)
Theorem serialize_pure_iso_timestamps (e : Entity) :
  (forall e', stored_data e' = stored_data e -> serialize e' = serialize e) /\
  (forall k v, dict_get k (serialize e) = Some v -> is_raw_object v = false) /\
  Forall (fun k => exists v,
            dict_get k (serialize e) = Some v /\ iso_or_null v = true)
    (timestamp_names e).
Proof.
  split; [|split].
  - intros e' H. now rewrite (stored_data_inj _ _ H).
  - intros k v H. eapply serialize_no_raw_object, dict_get_In, H.
  - destruct e as [u|m|r|l|p]; cbn;
      repeat (apply Forall_cons;
              [eexists; split; [reflexivity | apply iso_or_none_shape] |]);
      apply Forall_nil.
Qed.

(** C10: the output of [User.to_dict] has no [password_hash] key and does
    not depend on the stored hash: users that differ only in
    [password_hash] serialise identically, and [set_password] leaves the
    serialisation unchanged. *)
Theorem User_to_dict_hides_password_hash (u : User) :
  dict_get "password_hash" (to_dict u) = None /\
  ~ In "password_hash" (dict_keys (to_dict u)) /\
  (forall u', User_set_password_hash None u' = User_set_password_hash None u ->
              to_dict u' = to_dict u) /\
  (forall password w,
      exists u' w', User_set_password u password w = (Return u', w') /\
                    to_dict u' = to_dict u).
Proof.
  repeat split.
  - cbn. intros H. repeat (destruct H as [H|H]; [discriminate H|]). exact H.
  - intros u' H. destruct u, u'. cbn in *. injection H as ?. subst. reflexivity.
  - intros password w. do 2 eexists. split; reflexivity.
Qed.

(* ===================================================================== *)
(** * Saving and validation                                              *)
(* ===================================================================== *)

(** After [Document.save], [self] is what it was, up to the identifier
    assigned by an insert. *)
Lemma Document_save_self {D} `{DocumentClass D} (self : D) (w : World) :
  fst (fst (Document_save self w)) = self \/
  exists i, doc_id self = None /\ fst (fst (Document_save self w)) = doc_set_id (Some i) self.
Proof.
  unfold Document_save.
  destruct (validate _ self); [|now left].
  destruct (round_trip w) as [[[]|e] w1]; [|now left].
  destruct (doc_id self) eqn:Hid.
  - destruct (unique_conflict _ _); now left.
  - destruct (_ || _); [now left | right; eexists; split; reflexivity].
Qed.

(** C3 (as stated) fails: a record whose [updated_at] lies after the clock
    reading is moved back by [save]. *)
Lemma save_moves_updated_at_back :
  not_earlier (Medication_updated_at aspirin)
    (Medication_updated_at (fst (fst (Medication_save aspirin connected_world))))
  = false /\
  not_earlier (Reminder_updated_at morning)
    (Reminder_updated_at (fst (fst (Reminder_save morning connected_world))))
  = false.
Proof. split; vm_compute; reflexivity. Qed.

(** C3 (amended): every [save] of a Medication or a Reminder sets
    [updated_at] to the clock reading taken by the call, whatever the
    record held and whether or not the write succeeds; so [updated_at] is
    not earlier than before exactly when the previous value was unset or
    not later than that clock reading. *)
Theorem save_sets_updated_at_to_clock (w : World) :
  (forall m : Medication,
     Medication_updated_at (fst (fst (Medication_save m w)))
       = Some (env_clock (env w) (n_clock w)) /\
     not_earlier (Medication_updated_at m)
       (Medication_updated_at (fst (fst (Medication_save m w))))
       = match Medication_updated_at m with
         | Some before => datetime_leb before (env_clock (env w) (n_clock w))
         | None => true
         end) /\
  (forall r : Reminder,
     Reminder_updated_at (fst (fst (Reminder_save r w)))
       = Some (env_clock (env w) (n_clock w)) /\
     not_earlier (Reminder_updated_at r)
       (Reminder_updated_at (fst (fst (Reminder_save r w))))
       = match Reminder_updated_at r with
         | Some before => datetime_leb before (env_clock (env w) (n_clock w))
         | None => true
         end).
Proof.
  split.
  - intros m.
    assert (E : Medication_updated_at (fst (fst (Medication_save m w)))
                = Some (env_clock (env w) (n_clock w))).
    { unfold Medication_save.
      destruct (Document_save_self
                  (Medication_set_updated_at (Some (env_clock (env w) (n_clock w))) m)
                  (set_n_clock (S (n_clock w)) w)) as [-> | (i & _ & ->)];
        reflexivity. }
    split; [exact E|].
    rewrite E. destruct (Medication_updated_at m); reflexivity.
  - intros r.
    assert (E : Reminder_updated_at (fst (fst (Reminder_save r w)))
                = Some (env_clock (env w) (n_clock w))).
    { unfold Reminder_save.
      destruct (Document_save_self
                  (Reminder_set_updated_at (Some (env_clock (env w) (n_clock w))) r)
                  (set_n_clock (S (n_clock w)) w)) as [-> | (i & _ & ->)];
        reflexivity. }
    split; [exact E|].
    rewrite E. destruct (Reminder_updated_at r); reflexivity.
Qed.

Lemma validate_field_name (email_ok : string -> bool) (data : dict) (f : Field)
      (k msg : string) :
  In (k, msg) (validate_field email_ok data f) -> k = f_name f.
Proof.
  unfold validate_field.
  destruct (dict_get (f_name f) data) as [[]|];
    try (destruct (validate_value email_ok f _));
    try (destruct (f_required f));
    simpl; intros Hin;
    repeat match goal with
           | H : _ \/ _ |- _ => destruct H
           | H : False |- _ => destruct H
           | H : (_, _) = (_, _) |- _ => injection H as <- _
           end; reflexivity.
Qed.

(** A field in error is reported under its name. *)
Lemma validate_reports {D} `{DocumentClass D} (email_ok : string -> bool) (self : D)
      (f : Field) (msg : string) :
  In f doc_fields ->
  In (f_name f, msg) (validate_field email_ok (doc_data self) f) ->
  mem_string (f_name f) (map fst (validate email_ok self)) = true.
Proof.
  intros Hf Hm. apply existsb_exists. exists (f_name f). split.
  - apply in_map_iff. exists (f_name f, msg). split; [reflexivity|].
    apply in_flat_map. eauto.
  - apply String.eqb_refl.
Qed.

(** No error is reported under a name whose fields all pass. *)
Lemma validate_passes {D} `{DocumentClass D} (email_ok : string -> bool) (self : D)
      (k : string) :
  (forall f, In f doc_fields -> f_name f = k ->
             validate_field email_ok (doc_data self) f = []) ->
  mem_string k (map fst (validate email_ok self)) = false.
Proof.
  intros Hall.
  destruct (mem_string k _) eqn:E; [|reflexivity].
  apply existsb_exists in E. destruct E as (k' & Hin & Heq).
  apply String.eqb_eq in Heq. subst k'.
  apply in_map_iff in Hin. destruct Hin as ([k' msg] & Hk & Hin). simpl in Hk. subst k'.
  apply in_flat_map in Hin. destruct Hin as (f & Hf & Hin).
  pose proof (validate_field_name _ _ _ _ _ Hin) as Hname.
  rewrite (Hall f Hf (eq_sym Hname)) in Hin. destruct Hin.
Qed.

Lemma Document_save_invalid {D} `{DocumentClass D} (self : D) (w : World) (k : string) :
  mem_string k (map fst (validate (email_valid (env w)) self)) = true ->
  exists errors,
    Document_save self w = (self, Raise (ValidationError errors), w) /\
    mem_string k (map fst errors) = true.
Proof.
  intros Hk. unfold Document_save.
  destruct (validate (email_valid (env w)) self) as [|e errs].
  - discriminate Hk.
  - exists (e :: errs). split; [reflexivity | exact Hk].
Qed.

(** C4: saving a MedicationLog whose [status] is a string outside
    [taken, missed, delayed] raises a ValidationError that names [status]
    and stores nothing; a status inside the set draws no error on that
    field. The same holds for [processing_status] of a PrescriptionUpload
    and [pending, processing, completed, failed]. *)
Theorem choices_enforced_on_save (w : World) (s : string) :
  (forall i uid mid t d n rid c,
     let l := mk_MedicationLog i uid mid t d n (Some s) rid c in
     if mem_string s ["taken"; "missed"; "delayed"]
     then mem_string "status" (map fst (validate (email_valid (env w)) l)) = false
     else exists errors,
         Document_save l w = (l, Raise (ValidationError errors), w) /\
         mem_string "status" (map fst errors) = true) /\
  (forall i uid fn ofn fp fs mt et oc pt mf ma em ua pa,
     let p := mk_PrescriptionUpload i uid fn ofn fp fs mt et oc pt mf ma (Some s) em ua pa in
     if mem_string s ["pending"; "processing"; "completed"; "failed"]
     then mem_string "processing_status"
            (map fst (validate (email_valid (env w)) p)) = false
     else exists errors,
         Document_save p w = (p, Raise (ValidationError errors), w) /\
         mem_string "processing_status" (map fst errors) = true).
Proof.
  split; intros; cbv zeta.
  - destruct (mem_string s ["taken"; "missed"; "delayed"]) eqn:E.
    + apply validate_passes. intros f Hf Hname. cbn in Hf.
      repeat (destruct Hf as [<-|Hf]; [try discriminate Hname|]); [|destruct Hf].
      unfold validate_field, validate_value, choice_error. cbn.
      unfold mem_string in E. cbn in E. now rewrite E.
    + apply Document_save_invalid.
      apply (validate_reports _ _
               (default (PStr "taken")
                  (choices ["taken"; "missed"; "delayed"] (field "status" StringField)))
               "Value must be one of the choices").
      * cbn. tauto.
      * unfold validate_field, validate_value, choice_error. cbn.
        unfold mem_string in E. cbn in E. rewrite E. now left.
  - destruct (mem_string s ["pending"; "processing"; "completed"; "failed"]) eqn:E.
    + apply validate_passes. intros f Hf Hname. cbn in Hf.
      repeat (destruct Hf as [<-|Hf]; [try discriminate Hname|]); [|destruct Hf].
      unfold validate_field, validate_value, choice_error. cbn.
      unfold mem_string in E. cbn in E. now rewrite E.
    + apply Document_save_invalid.
      apply (validate_reports _ _
               (default (PStr "pending")
                  (choices ["pending"; "processing"; "completed"; "failed"]
                     (field "processing_status" StringField)))
               "Value must be one of the choices").
      * cbn. tauto.
      * unfold validate_field, validate_value, choice_error. cbn.
        unfold mem_string in E. cbn in E. rewrite E. now left.
Qed.

(* ===================================================================== *)
(** * Connection set-up and statistics                                   *)
(* ===================================================================== *)

(** The calls [init_mongodb] makes to the driver, whatever happens. *)
Lemma init_mongodb_driver_calls (app : option App) (w : World) :
  driver_calls (snd (init_mongodb app w)) =
    (driver_calls w ++ [CallDisconnect; CallConnect init_settings])%list.
Proof.
  unfold init_mongodb, try_except, bind, disconnect, connect, bind, print, ret.
  cbn.
  destruct (env_connect_error (env w)); cbn; rewrite <- app_assoc; reflexivity.
Qed.

(** [init_mongodb] returns a boolean and never raises.  It disconnects,
    whatever the state, then calls [connect]: when [connect] returns, the
    result is [True] with the connection registered; when [connect] itself
    raises, a diagnostic with the error is printed and the result is
    [False] with no connection registered.  No operation on the server is
    made. *)
Lemma init_mongodb_outcome (app : option App) (w : World) :
  exists b w',
    init_mongodb app w = (Return b, w') /\
    env w' = env w /\ n_op w' = n_op w /\
    users w' = users w /\ medications w' = medications w /\
    reminders w' = reminders w /\ medication_logs w' = medication_logs w /\
    prescription_uploads w' = prescription_uploads w /\
    match env_connect_error (env w) with
    | None =>
        b = true /\ connection w' = Some init_settings /\
        stdout w' =
          (stdout w ++
           ["✅ Connected to MongoDB: mongodb://localhost:27017/medimorph_db"])%list
    | Some e =>
        b = false /\ connection w' = None /\
        stdout w' = (stdout w ++ [("❌ MongoDB connection failed: " ++ exn_str e)%string])%list
    end.
Proof.
  unfold init_mongodb, try_except, bind, disconnect, connect, bind, print, ret.
  cbn.
  destruct (env_connect_error (env w)) as [e|]; cbn;
    do 2 eexists; (split; [reflexivity|]); cbn; repeat split.
Qed.

(** C6 (fails on the code): the result of [init_mongodb] does not depend
    on the server.  It is [False] only when [connect] itself raises, and
    [connect] contacts no server; with nothing listening at the address
    [init_mongodb] prints the success line, returns [True] and registers
    the connection, while every operation on the server fails: the probe
    [test_mongodb_connection], which pings the server, returns [False] in
    the same world, and [get_database_stats] returns [None]. *)
Theorem init_mongodb_misses_unreachable_server :
  (forall (app : option App) (w : World),
      fst (init_mongodb app w) = Return (is_none (env_connect_error (env w)))) /\
  exists w',
    init_mongodb None unreachable_world = (Return true, w') /\
    connection w' = Some init_settings /\
    stdout w' = ["✅ Connected to MongoDB: mongodb://localhost:27017/medimorph_db"] /\
    fst (test_mongodb_connection sample_replies unreachable_world) = Return false /\
    fst (get_database_stats w') = Return None.
Proof.
  split.
  - intros app w.
    destruct (init_mongodb_outcome app w) as (b & w' & E & _ & _ & _ & _ & _ & _ & _ & Hc).
    rewrite E. cbn.
    destruct (env_connect_error (env w)); cbn; now destruct Hc as (-> & _).
  - eexists. split; [vm_compute; reflexivity|]. vm_compute. repeat split.
Qed.

(** C8 (as stated) fails: an application object configured for another
    server is ignored; the connection still goes to the module's address. *)
Lemma init_mongodb_ignores_app_config :
  ~ connects_to_supplied_address remote_app fresh_world.
Proof.
  intros H.
  specialize (H "mongodb://db.example.com:27017/" init_settings).
  discriminate H.
  - cbn. tauto.
  - vm_compute. tauto.
Qed.

(** C8 (amended): [init_mongodb] takes one optional argument and ignores
    it; it always calls [connect] with the module constants: database
    [medimorph_db] at [mongodb://localhost:27017/], server selection
    timeout 5000 ms, connect timeout 10000 ms, socket timeout 20000 ms,
    pool size 50, retryWrites on. *)
Theorem init_mongodb_uses_fixed_settings (app : option App) (w : World) :
  init_mongodb app w = init_mongodb None w /\
  driver_calls (snd (init_mongodb app w)) =
    (driver_calls w ++
     [CallDisconnect;
      CallConnect
        (mk_ConnSettings "medimorph_db" "mongodb://localhost:27017/"
           5000 10000 20000 50 true)])%list.
Proof.
  split; [reflexivity | apply init_mongodb_driver_calls].
Qed.

(** C7: [get_database_stats] never raises; it returns either [None] or
    a mapping with exactly the five keys, each with the size of its
    collection. It returns the mapping when a connection is registered and
    none of the five counts raises, and [None] after printing a diagnostic
    otherwise. *)
Theorem get_database_stats_all_or_nothing (w : World) :
  exists r w',
    get_database_stats w = (Return r, w') /\
    match r with
    | Some stats =>
        map fst stats = stats_keys /\
        stats = [ ("users", length (users w));
                  ("medications", length (medications w));
                  ("reminders", length (reminders w));
                  ("medication_logs", length (medication_logs w));
                  ("prescription_uploads", length (prescription_uploads w)) ] /\
        connection w <> None /\
        no_fault_in_five (env w) (n_op w) = true
    | None =>
        (connection w = None \/ no_fault_in_five (env w) (n_op w) = false) /\
        exists e,
          stdout w' = (stdout w ++
                       [("❌ Error getting database stats: " ++ exn_str e)%string])%list
    end.
Proof.
  unfold get_database_stats, try_except, bind, objects_count, bind, round_trip,
    driver_op, print, ret, no_fault_in_five.
  destruct w as [e nc ns no k [c|] us ms rs ls ps out calls]; cbn.
  - repeat match goal with
           | |- context [env_fault e ?i] =>
               destruct (env_fault e i); cbn;
               [ do 2 eexists; split;
                 [ reflexivity | cbn; split; [now right | eexists; reflexivity] ] | ]
           end.
    do 2 eexists. split; [reflexivity|]. cbn. repeat split. discriminate.
  - do 2 eexists. split; [reflexivity|]. cbn. split; [now left |].
    now exists (ConnectionFailure "You have not defined a default connection").
Qed.

(* ===================================================================== *)
(** * Passwords                                                          *)
(* ===================================================================== *)

Lemma split_once_app (c : ascii) (a b : string) :
  contains_char c a = false -> split_once c (a ++ String c b) = Some (a, b).
Proof.
  induction a as [|x a IH]; simpl; intros H.
  - now rewrite Ascii.eqb_refl.
  - apply orb_false_iff in H. destruct H as [Hx Ha].
    rewrite Hx, (IH Ha). reflexivity.
Qed.

(** Checking a candidate against a generated hash compares the digests. *)
Lemma check_generated_hash (e : Env) (salt p q : string) :
  contains_char "$" (werkzeug_method e) = false ->
  contains_char "$" salt = false ->
  check_password_hash e (hash_string e salt p) q =
    String.eqb (werkzeug_hash e (werkzeug_method e) salt q)
               (werkzeug_hash e (werkzeug_method e) salt p).
Proof.
  intros Hm Hs. unfold check_password_hash, hash_string.
  change ("$" ++ salt ++ "$" ++ werkzeug_hash e (werkzeug_method e) salt p)
    with (String "$" (salt ++ String "$" (werkzeug_hash e (werkzeug_method e) salt p))).
  rewrite (split_once_app _ _ _ Hm), (split_once_app _ _ _ Hs). reflexivity.
Qed.

(** A key shorter than the block and the same key followed by a NUL byte
    are the same HMAC key. *)
Lemma repeat_string_NUL_S (k : nat) :
  NUL ++ repeat_string k NUL = repeat_string (S k) NUL.
Proof. reflexivity. Qed.

Lemma string_length_app (a b : string) :
  String.length (a ++ b) = (String.length a + String.length b)%nat.
Proof. induction a as [|c a IH]; simpl; [reflexivity | now rewrite IH]. Qed.

Lemma hmac_key_trailing_NUL (H : string -> string) (key : string) :
  (String.length key < HMAC_BLOCK)%nat ->
  hmac_key H (key ++ NUL) = hmac_key H key.
Proof.
  intros Hlen. unfold hmac_key.
  rewrite string_length_app. change (String.length NUL) with 1%nat.
  replace (Nat.ltb HMAC_BLOCK (String.length key + 1)) with false
    by (symmetry; apply Nat.ltb_ge; lia).
  replace (Nat.ltb HMAC_BLOCK (String.length key)) with false
    by (symmetry; apply Nat.ltb_ge; lia).
  cbv zeta. rewrite string_length_app. change (String.length NUL) with 1%nat.
  replace (HMAC_BLOCK - String.length key)%nat
    with (S (HMAC_BLOCK - (String.length key + 1)))%nat by lia.
  rewrite <- repeat_string_NUL_S, append_assoc. reflexivity.
Qed.

(** C1 (as stated) fails: with a digest keyed by the password as
    Werkzeug's are, the password followed by a NUL byte is another
    plaintext, and [check_password] returns true for it. *)
Lemma check_password_accepts_padded_password :
  ~ rejects_other_passwords alice "secret1" keyed_world.
Proof.
  intros H.
  specialize (H _ _ ("secret1" ++ NUL) eq_refl).
  assert (Hne : "secret1" ++ NUL <> "secret1") by discriminate.
  apply H in Hne. vm_compute in Hne. discriminate Hne.
Qed.

(** C1 (amended): after [set_password(p)], [check_password(p)] returns
    true, and [check_password(q)] returns true exactly when Werkzeug's
    digest of [q], under the method and the salt written into the hash,
    is the digest of [p]; so it returns false for every [q] whose digest
    differs.  Werkzeug's format is taken as it is: the method tag and the
    salt hold no [$]. *)
Theorem set_password_then_check_password (u : User) (p : string) (w : World) :
  contains_char "$" (werkzeug_method (env w)) = false ->
  contains_char "$" (env_salt (env w) (n_salt w)) = false ->
  exists u' w',
    User_set_password u p w = (Return u', w') /\
    User_check_password u' p w' = (Return true, w') /\
    forall q,
      User_check_password u' q w' =
        (Return
           (String.eqb
              (werkzeug_hash (env w) (werkzeug_method (env w))
                 (env_salt (env w) (n_salt w)) q)
              (werkzeug_hash (env w) (werkzeug_method (env w))
                 (env_salt (env w) (n_salt w)) p)), w').
Proof.
  intros Hm Hs.
  exists (User_set_password_hash
            (Some (hash_string (env w) (env_salt (env w) (n_salt w)) p)) u),
         (set_n_salt (S (n_salt w)) w).
  split; [reflexivity|].
  unfold User_check_password. cbn -[hash_string check_password_hash].
  split.
  - rewrite (check_generated_hash _ _ _ _ Hm Hs), String.eqb_refl. reflexivity.
  - intros q. rewrite (check_generated_hash _ _ _ _ Hm Hs). reflexivity.
Qed.

(** C1 (amended) at a sample user, in the world whose digest is keyed by
    the password. *)
Lemma set_password_then_check_password_witness :
  exists u' w',
    User_set_password alice "secret1" keyed_world = (Return u', w') /\
    User_check_password u' "secret1" w' = (Return true, w') /\
    forall q,
      User_check_password u' q w' =
        (Return
           (String.eqb
              (werkzeug_hash (env keyed_world) (werkzeug_method (env keyed_world))
                 (env_salt (env keyed_world) (n_salt keyed_world)) q)
              (werkzeug_hash (env keyed_world) (werkzeug_method (env keyed_world))
                 (env_salt (env keyed_world) (n_salt keyed_world)) "secret1")), w').
Proof.
  apply (set_password_then_check_password alice "secret1" keyed_world).
  - reflexivity.
  - reflexivity.
Defined.

(* ===================================================================== *)
(** * Seeding the default users                                          *)
(* ===================================================================== *)

Lemma has_username_spec (name : string) (u : User) :
  has_username name u = true <-> User_username u = Some name.
Proof.
  unfold has_username, field_value. cbn.
  destruct (User_username u) as [n|]; cbn.
  - rewrite String.eqb_eq. split; [now intros -> | now intros [= ->]].
  - split; discriminate.
Qed.

Lemma find_existsb {A} (f : A -> bool) (l : list A) :
  match find f l with
  | Some _ => existsb f l = true
  | None => existsb f l = false
  end.
Proof.
  induction l as [|a l IH]; simpl; [reflexivity|].
  destruct (f a); [reflexivity | exact IH].
Qed.

(** An operation of the driver reads nothing but the connection and the
    fault oracle, and changes only the operation counter. *)
Lemma round_trip_frame (w : World) :
  users (snd (round_trip w)) = users w /\ env (snd (round_trip w)) = env w.
Proof.
  unfold round_trip, driver_op.
  destruct (connection w); [destruct (env_fault (env w) (n_op w))|]; split; reflexivity.
Qed.

(** Saving a user that has no identifier yet appends it, or changes
    nothing. *)
Lemma Document_save_new_User (u : User) (w : World) :
  User_id u = None ->
  match Document_save u w with
  | (u', Return _, w') =>
      users w' = (users w ++ [u'])%list /\ env w' = env w /\
      exists i, u' = User_set_id (Some i) u
  | (_, Raise _, w') => users w' = users w /\ env w' = env w
  end.
Proof.
  intros Hid. unfold Document_save.
  destruct (validate _ u); [|split; reflexivity].
  pose proof (round_trip_frame w) as [Hu He].
  destruct (round_trip w) as [[[]|e] w1]; cbn in Hu, He; [|now split].
  cbn [doc_id User_Document]. rewrite Hid.
  destruct (_ || _); cbn; rewrite Hu, He; eauto.
Qed.

(** One iteration of the loop: the entry is skipped when its username is
    stored, otherwise one user is appended for it; an exception leaves the
    collection as it was. *)
Lemma create_default_user_spec (sd : SeedUser) (n : nat) (w : World) :
  match create_default_user sd n w with
  | (Return n', w') =>
      env w' = env w /\
      ((existsb (has_username (seed_username sd)) (users w) = true /\
        n' = n /\ users w' = users w) \/
       (existsb (has_username (seed_username sd)) (users w) = false /\
        n' = S n /\
        exists u, users w' = (users w ++ [u])%list /\ seeded_from (env w) sd u))
  | (Raise _, w') => users w' = users w /\ env w' = env w
  end.
Proof.
  unfold create_default_user, objects_first.
  unfold bind at 1 2.
  pose proof (round_trip_frame w) as [Hu He].
  destruct (round_trip w) as [[[]|e] w1]; cbn in Hu, He; [|now split].
  cbn [objects User_Document].
  pose proof (find_existsb (fun d : User => pyval_eqb (field_value "username" d)
                                             (PStr (seed_username sd))) (users w1)) as Hf.
  fold (has_username (seed_username sd)) in Hf.
  destruct (find _ (users w1)) as [existing|]; rewrite Hu in Hf.
  - cbn. split; [exact He|]. left. repeat split; assumption.
  - unfold new_seed_User, User_set_password, generate_password_hash, call, utcnow,
      gen_salt, print, bind, ret.
    match goal with
    | |- context [Document_save ?u ?w0] =>
        pose proof (Document_save_new_User u w0 eq_refl) as Hs;
        destruct (Document_save u w0) as [[u' [[]|e]] w2]
    end.
    + destruct Hs as (Hs & He2 & i & ->).
      change (users w2 = (users w1 ++
                [User_set_id (Some i)
                   (User_set_password_hash
                      (Some (hash_string (env w1) (env_salt (env w1) (n_salt w1))
                               (seed_password sd)))
                      (mk_User None (Some (seed_username sd)) (Some (seed_email sd))
                         None (Some (seed_first_name sd)) (Some (seed_last_name sd))
                         None None (Some true)
                         (Some (env_clock (env w1) (n_clock w1))) None))])%list) in Hs.
      change (env w2 = env w1) in He2.
      rewrite Hu, He in Hs.
      split; [cbn [env set_stdout]; congruence|]. right.
      split; [exact Hf|]. split; [reflexivity|].
      eexists. split; [exact Hs|].
      repeat split. eexists. reflexivity.
    + destruct Hs as [Hs He2].
      change (users w2 = users w1) in Hs. change (env w2 = env w1) in He2.
      split; congruence.
Qed.

Lemma existsb_app_other (name : string) (sd : SeedUser) (e : Env) (u : User)
      (l : list User) :
  seed_username sd <> name -> seeded_from e sd u ->
  existsb (has_username name) (l ++ [u]) = existsb (has_username name) l.
Proof.
  intros Hne (Hun & _). rewrite existsb_app. cbn.
  destruct (has_username name u) eqn:E.
  - apply has_username_spec in E. congruence.
  - now rewrite !orb_false_r.
Qed.

(** The loop, when it returns: it has appended one user for each entry
    whose username was not stored, in order, and counted them. *)
Lemma create_default_users_loop_spec (l : list SeedUser) :
  NoDup (map seed_username l) ->
  forall n w n' w',
    create_default_users_loop l n w = (Return n', w') ->
    env w' = env w /\
    exists created,
      users w' = (users w ++ created)%list /\
      n' = (n + length created)%nat /\
      Forall2 (seeded_from (env w)) (filter (is_missing (users w)) l) created.
Proof.
  induction l as [|sd rest IH]; intros Hnd n w n' w' Hrun.
  - injection Hrun as <- <-. split; [reflexivity|]. exists [].
    rewrite app_nil_r, Nat.add_0_r. repeat split. constructor.
  - cbn [create_default_users_loop] in Hrun. unfold bind in Hrun.
    pose proof (create_default_user_spec sd n w) as Hstep.
    destruct (create_default_user sd n w) as [[n1|e] w1]; [|discriminate Hrun].
    inversion Hnd as [|? ? Hnotin Hnd']; subst.
    destruct (IH Hnd' _ _ _ _ Hrun) as (He' & created & Hu' & Hn' & Hall).
    destruct Hstep as [He1 [(Hpresent & -> & Hu1) | (Habsent & -> & u & Hu1 & Hseed)]].
    + split; [congruence|]. exists created. rewrite Hu1 in Hu', Hall. rewrite He1 in Hall.
      repeat split; [exact Hu' | exact Hn' |].
      cbn [filter]. unfold is_missing at 1. rewrite Hpresent. exact Hall.
    + split; [congruence|]. exists (u :: created).
      repeat split.
      * rewrite Hu', Hu1, <- app_assoc. reflexivity.
      * rewrite Hn'. cbn. lia.
      * cbn [filter]. unfold is_missing at 1. rewrite Habsent. cbn [negb].
        constructor; [exact Hseed|].
        rewrite He1, Hu1 in Hall.
        erewrite filter_ext_in; [exact Hall|].
        intros sd' Hin. unfold is_missing. f_equal. symmetry.
        eapply existsb_app_other; [|exact Hseed].
        intros Heq. apply Hnotin. rewrite Heq. now apply in_map.
Qed.

(** The loop, when every entry's username is stored: nothing is created,
    whatever the outcome. *)
Lemma create_default_users_loop_present (l : list SeedUser) :
  forall n w,
    (forall sd, In sd l -> existsb (has_username (seed_username sd)) (users w) = true) ->
    users (snd (create_default_users_loop l n w)) = users w.
Proof.
  induction l as [|sd rest IH]; intros n w Hall; [reflexivity|].
  cbn [create_default_users_loop]. unfold bind.
  pose proof (create_default_user_spec sd n w) as Hstep.
  destruct (create_default_user sd n w) as [[n1|e] w1].
  - destruct Hstep as [_ [(_ & _ & Hu1) | (Habsent & _)]].
    + rewrite IH; [exact Hu1|]. intros sd' Hin. rewrite Hu1. apply Hall. now right.
    + rewrite (Hall sd (or_introl eq_refl)) in Habsent. discriminate Habsent.
  - exact (proj1 Hstep).
Qed.

Lemma Forall2_In_l {A B} (R : A -> B -> Prop) (l1 : list A) (l2 : list B) (x : A) :
  Forall2 R l1 l2 -> In x l1 -> exists y, In y l2 /\ R x y.
Proof.
  induction 1 as [|a b l1 l2 Hab _ IH]; intros Hin; [destruct Hin|].
  destruct Hin as [<-|Hin].
  - exists b. split; [now left | exact Hab].
  - destruct (IH Hin) as (y & Hy & Hr). exists y. split; [now right | exact Hr].
Qed.

Lemma default_usernames_distinct : NoDup (map seed_username default_users).
Proof.
  cbn. constructor; [|constructor; [|constructor]]; cbn; intros H.
  - destruct H as [H|[]]. discriminate H.
  - destruct H.
Qed.

(** C5 (as stated) fails: when a stored user holds a seed's e-mail address
    under another username, the first insert hits the unique index, the
    run stops and no user is created, although both seed usernames are
    missing. *)
Lemma create_default_users_email_conflict :
  ~ creates_missing_seeds world_with_bob.
Proof. intros H. vm_compute in H. discriminate H. Qed.

(** A run of [create_default_users] that returns [True] has appended
    exactly one user for each seed entry whose username was not stored. *)
Lemma create_default_users_creates (w w1 : World) :
  create_default_users w = (Return true, w1) ->
  exists created,
    users w1 = (users w ++ created)%list /\
    Forall2 (seeded_from (env w)) (missing_seeds w) created.
Proof.
  intros Hrun.
  unfold create_default_users, try_except, bind in Hrun.
  destruct (create_default_users_loop default_users 0 w) as [[n'|e] w'] eqn:Hloop.
  - destruct (create_default_users_loop_spec _ default_usernames_distinct _ _ _ _ Hloop)
      as (_ & created & Hu & _ & Hall).
    exists created. split; [|exact Hall].
    destruct (Nat.eqb n' 0); cbn in Hrun; injection Hrun as <-; exact Hu.
  - cbn in Hrun. discriminate Hrun.
Qed.

(** After such a run every seed username is stored. *)
Lemma seeds_present_after (w w1 : World) (created : list User) :
  users w1 = (users w ++ created)%list ->
  Forall2 (seeded_from (env w)) (missing_seeds w) created ->
  forall sd, In sd default_users ->
    existsb (has_username (seed_username sd)) (users w1) = true.
Proof.
  intros Hu Hall sd Hin. rewrite Hu, existsb_app.
  destruct (existsb (has_username (seed_username sd)) (users w)) eqn:E;
    [reflexivity|]. cbn.
  assert (Hmiss : In sd (missing_seeds w)).
  { apply filter_In. split; [exact Hin | unfold is_missing; now rewrite E]. }
  destruct (Forall2_In_l _ _ _ _ Hall Hmiss) as (u & Hin' & Hseed & _).
  apply existsb_exists. exists u. split; [exact Hin'|].
  now apply has_username_spec.
Qed.

(** The loop, when every entry's username is stored and the database
    answers: it returns the count it was given and creates nothing. *)
Lemma create_default_users_loop_all_present (l : list SeedUser) :
  forall n w,
    database_answers w ->
    (forall sd, In sd l -> existsb (has_username (seed_username sd)) (users w) = true) ->
    exists w', create_default_users_loop l n w = (Return n, w') /\ users w' = users w.
Proof.
  induction l as [|sd rest IH]; intros n w Hdb Hall.
  - exists w. split; reflexivity.
  - cbn [create_default_users_loop]. unfold bind at 1.
    assert (Hstep : exists w1, create_default_user sd n w = (Return n, w1) /\
                               users w1 = users w /\ env w1 = env w /\
                               connection w1 = connection w).
    { destruct Hdb as [Hc Hf].
      unfold create_default_user, objects_first. unfold bind at 1 2.
      unfold round_trip, driver_op.
      destruct (connection w) as [c|] eqn:Ec; [|now destruct Hc].
      rewrite Hf. cbn [objects User_Document users set_n_op].
      pose proof (find_existsb (fun d : User => pyval_eqb (field_value "username" d)
                                                 (PStr (seed_username sd))) (users w))
        as Hfind.
      fold (has_username (seed_username sd)) in Hfind.
      fold (has_username (seed_username sd)).
      destruct (find (has_username (seed_username sd)) (users w)) as [existing|].
      - eexists. split; [reflexivity|]. cbn. auto.
      - rewrite (Hall sd (or_introl eq_refl)) in Hfind. discriminate Hfind. }
    destruct Hstep as (w1 & -> & Hu & He & Hc).
    destruct (IH n w1) as (w' & -> & Hu').
    + destruct Hdb as [Hconn Hf]. split; [now rewrite Hc | intros k; rewrite He; apply Hf].
    + intros sd' Hin. rewrite Hu. apply Hall. now right.
    + exists w'. split; [reflexivity | congruence].
Qed.

(* ===================================================================== *)
(** * Identifiers as strings                                             *)
(* ===================================================================== *)

Lemma ObjectId_of_str_hex_byte (b : Byte.byte) (r : string) :
  ObjectId_of_str (hex_byte b ++ r) =
    match ObjectId_of_str r with
    | Some o => Some (b :: o)
    | None => None
    end.
Proof. destruct b; reflexivity. Qed.

(** The hexadecimal string of an identifier reads back as the identifier. *)
Lemma ObjectId_of_str_ObjectId_str (o : ObjectId) :
  ObjectId_of_str (ObjectId_str o) = Some o.
Proof.
  induction o as [|b o IH]; [reflexivity|].
  change (ObjectId_str (b :: o)) with (hex_byte b ++ ObjectId_str o).
  now rewrite ObjectId_of_str_hex_byte, IH.
Qed.

Lemma ObjectId_str_inj (a b : ObjectId) : ObjectId_str a = ObjectId_str b -> a = b.
Proof.
  intros H.
  assert (E : Some a = Some b)
    by now rewrite <- (ObjectId_of_str_ObjectId_str a), H, ObjectId_of_str_ObjectId_str.
  now injection E.
Qed.

Lemma ObjectId_str_not_None (o : ObjectId) : ObjectId_str o <> "None".
Proof.
  intros H. pose proof (ObjectId_of_str_ObjectId_str o) as E.
  rewrite H in E. discriminate E.
Qed.

Lemma py_str_id_inj (a b : option ObjectId) : py_str_id a = py_str_id b -> a = b.
Proof.
  destruct a as [x|], b as [y|]; simpl; intros H.
  - f_equal. now apply ObjectId_str_inj.
  - now apply ObjectId_str_not_None in H.
  - symmetry in H. now apply ObjectId_str_not_None in H.
  - reflexivity.
Qed.

Lemma bytes_eqb_eq (a b : list Byte.byte) : bytes_eqb a b = true <-> a = b.
Proof.
  revert b; induction a as [|x a IH]; intros [|y b]; simpl;
    try (split; [discriminate | discriminate]); [tauto|].
  rewrite andb_true_iff, IH. split.
  - intros [Hx ->]. now rewrite (Byte.byte_dec_bl _ _ Hx).
  - intros [= -> ->]. split; [now apply Byte.byte_dec_lb | reflexivity].
Qed.

Lemma id_eqb_eq (a b : option ObjectId) : id_eqb a b = true <-> a = b.
Proof.
  destruct a as [x|], b as [y|]; simpl;
    try (split; [discriminate | discriminate]); [|tauto].
  rewrite bytes_eqb_eq. split; [now intros -> | now intros [= ->]].
Qed.

(** X1: [get_id] tells users apart exactly as their identifiers do: two
    users have the same [get_id] string if and only if they have the same
    identifier (an unsaved user, with no identifier, gives ["None"], which
    no identifier gives); and [get_id] is the ["id"] entry of [to_dict]. *)
Theorem User_get_id_identifies (u u' : User) :
  String.eqb (User_get_id u) (User_get_id u') = id_eqb (User_id u) (User_id u') /\
  dict_get "id" (to_dict u) = Some (PStr (User_get_id u)).
Proof.
  split; [|reflexivity].
  unfold User_get_id.
  destruct (id_eqb (User_id u) (User_id u')) eqn:E.
  - apply id_eqb_eq in E. rewrite E. apply String.eqb_refl.
  - apply String.eqb_neq. intros H. apply py_str_id_inj in H.
    apply id_eqb_eq in H. congruence.
Qed.

(* ===================================================================== *)
(** * Reading timestamps back                                            *)
(* ===================================================================== *)

Lemma digit_char_value (n : N) : N_of_ascii (digit_char n) - 48 = n mod 10.
Proof.
  unfold digit_char.
  assert (Hlt : n mod 10 < 10) by (apply N.mod_lt; discriminate).
  generalize dependent (n mod 10); intros k Hlt.
  rewrite N_ascii_embedding by lia. lia.
Qed.

Lemma read_digits_snoc (w : nat) (acc : N) (s : string) :
  read_digits (S w) acc s =
    and_then (read_digits w acc s) (fun '(v, r) => read_digits 1 v r).
Proof.
  revert acc s; induction w as [|w IH]; intros acc s.
  - reflexivity.
  - destruct s as [|c r]; [reflexivity|].
    change (read_digits (S (S w)) acc (String c r))
      with (if is_digit c
            then read_digits (S w) (10 * acc + (N_of_ascii c - 48)) r else None).
    change (read_digits (S w) acc (String c r))
      with (if is_digit c
            then read_digits w (10 * acc + (N_of_ascii c - 48)) r else None).
    destruct (is_digit c); [apply IH | reflexivity].
Qed.

Lemma read_digits_fixed (w : nat) (acc n : N) (r : string) :
  read_digits w acc (fixed_digits w n ++ r) =
    Some (acc * 10 ^ N.of_nat w + n mod 10 ^ N.of_nat w, r).
Proof.
  revert n r; induction w as [|w IH]; intros n r.
  - cbn [read_digits fixed_digits append N.of_nat]. rewrite N.pow_0_r, N.mod_1_r.
    f_equal. f_equal. lia.
  - rewrite read_digits_snoc.
    change (fixed_digits (S w) n)
      with (fixed_digits w (n / 10) ++ String (digit_char n) "").
    rewrite append_assoc, IH. cbn [and_then append read_digits].
    rewrite is_digit_digit_char, digit_char_value.
    f_equal. f_equal.
    rewrite Nat2N.inj_succ, N.pow_succ_r'.
    rewrite (N.Div0.mod_mul_r n 10 (10 ^ N.of_nat w)).
    generalize (n mod 10) ((n / 10) mod 10 ^ N.of_nat w) (10 ^ N.of_nat w).
    intros a b c. lia.
Qed.

Lemma read_digits_zpad (w : nat) (n : N) (r : string) :
  n < 10 ^ N.of_nat w -> read_digits w 0 (zpad w n ++ r) = Some (n, r).
Proof.
  intros H. rewrite zpad_fixed by exact H. rewrite read_digits_fixed.
  rewrite N.mod_small by exact H. reflexivity.
Qed.

(** A string written by [isoformat] reads back as the seven components. *)
Lemma parse_iso_isoformat (d : datetime) : parse_iso (isoformat d) = Some (datetime_key d).
Proof.
  destruct (datetime_bounds d) as (Hy & Hmo & Hd & Hh & Hmi & Hs & Hus).
  unfold parse_iso, isoformat, datetime_key.
  rewrite (read_digits_zpad 4) by exact Hy. cbn [and_then append eat_char Ascii.eqb Bool.eqb].
  rewrite (read_digits_zpad 2) by exact Hmo. cbn [and_then append eat_char Ascii.eqb Bool.eqb].
  rewrite (read_digits_zpad 2) by exact Hd. cbn [and_then append eat_char Ascii.eqb Bool.eqb].
  rewrite (read_digits_zpad 2) by exact Hh. cbn [and_then append eat_char Ascii.eqb Bool.eqb].
  rewrite (read_digits_zpad 2) by exact Hmi. cbn [and_then append eat_char Ascii.eqb Bool.eqb].
  rewrite (read_digits_zpad 2) by exact Hs. cbn [and_then].
  destruct (N.eqb_spec (microsecond d) 0) as [E|E].
  - congruence.
  - cbn [append eat_char Ascii.eqb Bool.eqb and_then].
    rewrite <- (append_nil_r (zpad 6 (microsecond d))).
    rewrite (read_digits_zpad 6) by exact Hus. reflexivity.
Qed.

Lemma datetime_key_inj (a b : datetime) : datetime_key a = datetime_key b -> a = b.
Proof.
  destruct a as [y1 mo1 d1 h1 mi1 s1 us1 ok1], b as [y2 mo2 d2 h2 mi2 s2 us2 ok2].
  unfold datetime_key; simpl. intros [= -> -> -> -> -> -> ->].
  f_equal. apply Eqdep_dec.UIP_dec. apply Bool.bool_dec.
Qed.

(** Distinct timestamps have distinct ISO-8601 strings. *)
Lemma isoformat_inj (a b : datetime) : isoformat a = isoformat b -> a = b.
Proof.
  intros H. apply datetime_key_inj.
  assert (E : Some (datetime_key a) = Some (datetime_key b))
    by now rewrite <- !parse_iso_isoformat, H.
  congruence.
Qed.

Lemma iso_or_none_inj (a b : option datetime) : iso_or_none a = iso_or_none b -> a = b.
Proof.
  destruct a as [x|], b as [y|]; simpl; intros H; try discriminate H; [|reflexivity].
  injection H as H. f_equal. now apply isoformat_inj.
Qed.

Lemma str_id_inj (a b : option ObjectId) : str_id a = str_id b -> a = b.
Proof. unfold str_id. intros [= H]. now apply py_str_id_inj. Qed.

Lemma str_id_or_none_inj (a b : option ObjectId) :
  str_id_or_none a = str_id_or_none b -> a = b.
Proof.
  destruct a as [x|], b as [y|]; simpl; intros H; try discriminate H; [|reflexivity].
  injection H as H. f_equal. now apply ObjectId_str_inj.
Qed.

Ltac rendered_eqs :=
  repeat match goal with
         | H : str_id _ = str_id _ |- _ => apply str_id_inj in H; subst
         | H : py_str_id _ = py_str_id _ |- _ => apply py_str_id_inj in H; subst
         | H : iso_or_none _ = iso_or_none _ |- _ => apply iso_or_none_inj in H; subst
         | H : str_id_or_none _ = str_id_or_none _ |- _ =>
             apply str_id_or_none_inj in H; subst
         | H : of_opt _ _ = of_opt _ _ |- _ =>
             apply of_opt_inj in H;
             [ subst | intros ?; discriminate | intros ? ? [=]; assumption ]
         end.

(** X2: [to_dict] loses nothing of what it exposes: two records serialise
    to the same dictionary if and only if they are of the same entity type
    and agree on every stored field other than the ones [to_dict] leaves
    out ([password_hash], [user_username], [file_path]). In particular
    distinct identifiers and distinct timestamps never serialise alike. *)
Theorem serialize_lossless_on_exposed_fields (e e' : Entity) :
  serialize e = serialize e' <-> exposed_data e = exposed_data e'.
Proof.
  split.
  - destruct e as [[]|[]|[]|[]|[]], e' as [[]|[]|[]|[]|[]];
      cbn -[str_id iso_or_none str_id_or_none of_opt];
      intros H; try discriminate H;
      injection H; intros; rendered_eqs; reflexivity.
  - destruct e as [[]|[]|[]|[]|[]], e' as [[]|[]|[]|[]|[]];
      cbn -[str_id iso_or_none str_id_or_none of_opt];
      intros H; try discriminate H;
      injection H; intros; rendered_eqs; reflexivity.
Qed.

(* ===================================================================== *)
(** * What a save writes                                                 *)
(* ===================================================================== *)

(** The three ways [Document.save] can end: an exception, with [self] as
    it was and only counters of the world advanced; an insert under a
    fresh identifier; an overwrite or insert under the identifier of
    [self]. *)
Lemma Document_save_cases {D} `{DocumentClass D} (self : D) (w : World) :
  (exists e w',
      Document_save self w = (self, Raise e, w') /\
      (w' = w \/ w' = set_n_op (S (n_op w)) w \/
       w' = set_n_oid (S (n_oid w)) (set_n_op (S (n_op w)) w))) \/
  (doc_id self = None /\
   Document_save self w =
     (doc_set_id (Some (env_oid (env w) (n_oid w))) self, Return tt,
      set_objects
        (objects (set_n_oid (S (n_oid w)) (set_n_op (S (n_op w)) w)) ++
         [doc_set_id (Some (env_oid (env w) (n_oid w))) self])
        (set_n_oid (S (n_oid w)) (set_n_op (S (n_op w)) w)))) \/
  (doc_id self <> None /\
   Document_save self w =
     (self, Return tt,
      set_objects (upsert self (objects (set_n_op (S (n_op w)) w)))
        (set_n_op (S (n_op w)) w))).
Proof.
  unfold Document_save, round_trip, driver_op.
  destruct (validate _ self); [|left; eauto].
  destruct (connection w); [|left; eauto].
  destruct (env_fault (env w) (n_op w)); [left; eauto 6|].
  destruct (doc_id self) eqn:Hid.
  - destruct (unique_conflict _ _); [left; eauto 6|].
    right. right. split; [discriminate | reflexivity].
  - destruct (_ || _); [left; eauto 7|].
    right. left. split; reflexivity.
Qed.

Lemma Medication_set_id_same (m : Medication) (i : option ObjectId) :
  Medication_set_id (Medication_id m) (Medication_set_id i m) = m.
Proof. destruct m; reflexivity. Qed.

Lemma Reminder_set_id_same (r : Reminder) (i : option ObjectId) :
  Reminder_set_id (Reminder_id r) (Reminder_set_id i r) = r.
Proof. destruct r; reflexivity. Qed.

(** X3: [save] of a Medication or a Reminder changes nothing of the
    record but [updated_at] and, on the first successful insert, the
    identifier: up to the identifier, the record after the call is the
    record before it with [updated_at] set to the clock reading, and an
    identifier once assigned is never changed. *)
Theorem save_changes_only_updated_at_and_id (w : World) :
  (forall m : Medication,
     Medication_set_id (Medication_id m) (fst (fst (Medication_save m w))) =
       Medication_set_updated_at (Some (env_clock (env w) (n_clock w))) m /\
     (Medication_id (fst (fst (Medication_save m w))) = Medication_id m \/
      Medication_id m = None /\ snd (fst (Medication_save m w)) = Return tt)) /\
  (forall r : Reminder,
     Reminder_set_id (Reminder_id r) (fst (fst (Reminder_save r w))) =
       Reminder_set_updated_at (Some (env_clock (env w) (n_clock w))) r /\
     (Reminder_id (fst (fst (Reminder_save r w))) = Reminder_id r \/
      Reminder_id r = None /\ snd (fst (Reminder_save r w)) = Return tt)).
Proof.
  split.
  - intros m. unfold Medication_save.
    destruct (Document_save_cases
                (Medication_set_updated_at (Some (env_clock (env w) (n_clock w))) m)
                (set_n_clock (S (n_clock w)) w))
      as [(e & w' & -> & _) | [(Hid & ->) | (Hid & ->)]]; cbn [fst snd].
    + split; [destruct m; reflexivity | now left].
    + split; [apply (Medication_set_id_same
                       (Medication_set_updated_at _ m)) | right].
      split; [exact Hid | reflexivity].
    + split; [destruct m; reflexivity | now left].
  - intros r. unfold Reminder_save.
    destruct (Document_save_cases
                (Reminder_set_updated_at (Some (env_clock (env w) (n_clock w))) r)
                (set_n_clock (S (n_clock w)) w))
      as [(e & w' & -> & _) | [(Hid & ->) | (Hid & ->)]]; cbn [fst snd].
    + split; [destruct r; reflexivity | now left].
    + split; [apply (Reminder_set_id_same
                       (Reminder_set_updated_at _ r)) | right].
      split; [exact Hid | reflexivity].
    + split; [destruct r; reflexivity | now left].
Qed.

(** A save reads the clock once and leaves the environment as it is. *)
Lemma Medication_save_clock (m : Medication) (w : World) :
  env (snd (Medication_save m w)) = env w /\
  n_clock (snd (Medication_save m w)) = S (n_clock w).
Proof.
  unfold Medication_save.
  destruct (Document_save_cases
              (Medication_set_updated_at (Some (env_clock (env w) (n_clock w))) m)
              (set_n_clock (S (n_clock w)) w))
    as [(e & w' & -> & [-> | [-> | ->]]) | [(_ & ->) | (_ & ->)]];
    split; reflexivity.
Qed.

Lemma Reminder_save_clock (r : Reminder) (w : World) :
  env (snd (Reminder_save r w)) = env w /\
  n_clock (snd (Reminder_save r w)) = S (n_clock w).
Proof.
  unfold Reminder_save.
  destruct (Document_save_cases
              (Reminder_set_updated_at (Some (env_clock (env w) (n_clock w))) r)
              (set_n_clock (S (n_clock w)) w))
    as [(e & w' & -> & [-> | [-> | ->]]) | [(_ & ->) | (_ & ->)]];
    split; reflexivity.
Qed.

Lemma Medication_save_updated_at (m : Medication) (w : World) :
  Medication_updated_at (fst (fst (Medication_save m w))) =
    Some (env_clock (env w) (n_clock w)).
Proof.
  unfold Medication_save.
  destruct (Document_save_self
              (Medication_set_updated_at (Some (env_clock (env w) (n_clock w))) m)
              (set_n_clock (S (n_clock w)) w)) as [-> | (i & _ & ->)]; reflexivity.
Qed.

Lemma Reminder_save_updated_at (r : Reminder) (w : World) :
  Reminder_updated_at (fst (fst (Reminder_save r w))) =
    Some (env_clock (env w) (n_clock w)).
Proof.
  unfold Reminder_save.
  destruct (Document_save_self
              (Reminder_set_updated_at (Some (env_clock (env w) (n_clock w))) r)
              (set_n_clock (S (n_clock w)) w)) as [-> | (i & _ & ->)]; reflexivity.
Qed.

(** X4: when the clock does not step back between two successive saves of
    a Medication or a Reminder, [updated_at] after the second save is not
    earlier than after the first, whether or not either write succeeds. *)
Theorem successive_saves_order_updated_at (m : Medication) (r : Reminder) (w : World) :
  datetime_leb (env_clock (env w) (n_clock w)) (env_clock (env w) (S (n_clock w))) = true ->
  not_earlier
    (Medication_updated_at (fst (fst (Medication_save m w))))
    (Medication_updated_at
       (fst (fst (Medication_save (fst (fst (Medication_save m w)))
                    (snd (Medication_save m w)))))) = true /\
  not_earlier
    (Reminder_updated_at (fst (fst (Reminder_save r w))))
    (Reminder_updated_at
       (fst (fst (Reminder_save (fst (fst (Reminder_save r w)))
                    (snd (Reminder_save r w)))))) = true.
Proof.
  intros Hclock. split.
  - rewrite !Medication_save_updated_at.
    destruct (Medication_save_clock m w) as [-> ->]. exact Hclock.
  - rewrite !Reminder_save_updated_at.
    destruct (Reminder_save_clock r w) as [-> ->]. exact Hclock.
Qed.

(** X4 at the sample records, under the sample clock. *)
Lemma successive_saves_order_updated_at_witness :
  not_earlier
    (Medication_updated_at (fst (fst (Medication_save aspirin connected_world))))
    (Medication_updated_at
       (fst (fst (Medication_save (fst (fst (Medication_save aspirin connected_world)))
                    (snd (Medication_save aspirin connected_world)))))) = true /\
  not_earlier
    (Reminder_updated_at (fst (fst (Reminder_save morning connected_world))))
    (Reminder_updated_at
       (fst (fst (Reminder_save (fst (fst (Reminder_save morning connected_world)))
                    (snd (Reminder_save morning connected_world)))))) = true.
Proof.
  apply (successive_saves_order_updated_at aspirin morning connected_world).
  reflexivity.
Defined.

(** When [get_database_stats] answers with a mapping, it holds the sizes
    of the five collections. *)
Lemma get_database_stats_sizes (w : World) (stats : list (string * nat)) :
  fst (get_database_stats w) = Return (Some stats) -> stats = collection_sizes w.
Proof.
  unfold get_database_stats, try_except, bind, objects_count, bind, round_trip,
    driver_op, print, ret.
  destruct w as [e nc ns no k [c|] us ms rs ls ps out calls]; cbn; [|discriminate].
  repeat match goal with
         | |- context [env_fault e ?i] =>
             destruct (env_fault e i); cbn; [discriminate|]
         end.
  now intros [= <-].
Qed.

Ltac save_sizes self w Hnone :=
  destruct (Document_save_cases self w)
    as [(x & w' & -> & [-> | [-> | ->]]) | [(Hid & ->) | (Hid & _)]];
  cbn [fst snd];
  [ repeat split | repeat split | repeat split
  | unfold collection_sizes, add_to_size; cbn; rewrite length_app; reflexivity
  | cbn in Hid, Hnone; congruence ].

(** X5: the first save of a record, one that holds no identifier yet and
    whose integers BSON can hold, adds exactly one document to the
    collection of its entity type when it succeeds, and no other
    collection changes size; when it raises, all five collections are as
    they were. So [get_database_stats], when it answers after the save,
    reports these sizes. *)
Theorem first_save_adds_one_document (e : Entity) (w : World) :
  entity_id e = None ->
  ints_fit e = true ->
  match snd (fst (Entity_save e w)) with
  | Return _ =>
      collection_sizes (snd (Entity_save e w)) =
        add_to_size (entity_collection e) 1%nat (collection_sizes w)
  | Raise _ => same_collections w (snd (Entity_save e w))
  end /\
  (forall stats,
      fst (get_database_stats (snd (Entity_save e w))) = Return (Some stats) ->
      stats = collection_sizes (snd (Entity_save e w))).
Proof.
  intros Hnone _.
  split; [|intros stats; apply get_database_stats_sizes].
  destruct e as [u|m|r|l|p]; unfold Entity_save, entity_collection;
    cbn [entity_id] in Hnone.
  - save_sizes u w Hnone.
  - unfold Medication_save.
    save_sizes (Medication_set_updated_at (Some (env_clock (env w) (n_clock w))) m)
               (set_n_clock (S (n_clock w)) w) Hnone.
  - unfold Reminder_save.
    save_sizes (Reminder_set_updated_at (Some (env_clock (env w) (n_clock w))) r)
               (set_n_clock (S (n_clock w)) w) Hnone.
  - save_sizes l w Hnone.
  - save_sizes p w Hnone.
Qed.

(** X5 at the first save of a sample upload, into empty collections. *)
Lemma first_save_adds_one_document_witness :
  match snd (fst (Entity_save (APrescriptionUpload scan) connected_world)) with
  | Return _ =>
      collection_sizes (snd (Entity_save (APrescriptionUpload scan) connected_world)) =
        add_to_size (entity_collection (APrescriptionUpload scan)) 1%nat
          (collection_sizes connected_world)
  | Raise _ =>
      same_collections connected_world
        (snd (Entity_save (APrescriptionUpload scan) connected_world))
  end /\
  (forall stats,
      fst (get_database_stats
             (snd (Entity_save (APrescriptionUpload scan) connected_world))) =
        Return (Some stats) ->
      stats = collection_sizes
                (snd (Entity_save (APrescriptionUpload scan) connected_world))).
Proof.
  apply (first_save_adds_one_document (APrescriptionUpload scan) connected_world).
  - reflexivity.
  - reflexivity.
Defined.

(* ===================================================================== *)
(** * Unique usernames and e-mail addresses                              *)
(* ===================================================================== *)

Lemma pyval_eqb_str (a b : option string) :
  pyval_eqb (of_opt PStr a) (of_opt PStr b) = true <-> a = b.
Proof.
  destruct a as [x|], b as [y|]; simpl;
    try (split; [discriminate | discriminate]); [|tauto].
  rewrite String.eqb_eq. split; [now intros -> | now intros [= ->]].
Qed.

(** The unique-index check of a user, spelled out. *)
Lemma User_unique_conflict (u : User) (stored : list User) :
  unique_conflict u stored = true <->
  exists v, In v stored /\ User_id v <> User_id u /\
            (User_username v = User_username u \/ User_email v = User_email u).
Proof.
  unfold unique_conflict. rewrite existsb_exists. split.
  - intros (v & Hin & Hv). exists v. split; [exact Hin|].
    apply andb_true_iff in Hv. destruct Hv as [Hid Hk].
    split.
    + intros E. apply id_eqb_eq in E. cbn in Hid, E. rewrite E in Hid. discriminate Hid.
    + cbn in Hk. rewrite !orb_true_iff in Hk.
      destruct Hk as [Hk | [Hk | Hk]]; [| |discriminate Hk].
      * left. now apply pyval_eqb_str.
      * right. now apply pyval_eqb_str.
  - intros (v & Hin & Hid & Hk). exists v. split; [exact Hin|].
    apply andb_true_iff. split.
    + destruct (id_eqb (doc_id v) (doc_id u)) eqn:E; [|reflexivity].
      apply id_eqb_eq in E. now destruct Hid.
    + cbn. rewrite !orb_true_iff.
      destruct Hk as [Hk | Hk]; [left | right; left]; now apply pyval_eqb_str.
Qed.

(** X6: a new user, one that holds no identifier yet, whose username or
    e-mail address a stored user already has, is never inserted: [save]
    raises, [self] and the collection stay as they were; when the record
    is valid and the operation on the server succeeds, the exception is a
    [NotUniqueError]. *)
Theorem User_save_rejects_duplicate (u v : User) (w : World) :
  User_id u = None ->
  In v (users w) ->
  User_username v = User_username u \/ User_email v = User_email u ->
  exists e w',
    Document_save u w = (u, Raise e, w') /\
    users w' = users w /\
    (validate (email_valid (env w)) u = [] ->
     connection w <> None -> env_fault (env w) (n_op w) = None ->
     exists msg, e = NotUniqueError msg).
Proof.
  intros Hu Hin Hk.
  unfold Document_save, round_trip, driver_op.
  destruct (validate _ u) as [|err errs].
  2:{ do 2 eexists. split; [reflexivity|]. split; [reflexivity|]. discriminate. }
  destruct (connection w) as [c|].
  2:{ do 2 eexists. split; [reflexivity|]. split; [reflexivity|]. congruence. }
  destruct (env_fault (env w) (n_op w)) as [x|].
  { do 2 eexists. split; [reflexivity|]. split; [reflexivity|]. discriminate. }
  cbn [doc_id User_Document objects env n_oid set_n_op set_n_oid users].
  rewrite Hu.
  assert (Hc : has_id (env_oid (env w) (n_oid w)) (users w)
               || unique_conflict (doc_set_id (Some (env_oid (env w) (n_oid w))) u)
                    (users w) = true).
  { destruct (id_eqb (User_id v) (Some (env_oid (env w) (n_oid w)))) eqn:E.
    - apply orb_true_iff. left. apply existsb_exists. exists v. split; assumption.
    - apply orb_true_iff. right. apply User_unique_conflict. exists v.
      split; [exact Hin|]. split.
      + intros E'. apply id_eqb_eq in E'. destruct u; cbn in E'. congruence.
      + destruct u; exact Hk. }
  rewrite Hc. do 2 eexists. split; [reflexivity|]. split; [reflexivity|].
  intros _ _ _. eexists. reflexivity.
Qed.

(** X6 at carol, who reuses the e-mail address of the stored user bob. *)
Lemma User_save_rejects_duplicate_witness :
  exists e w',
    Document_save carol world_with_bob = (carol, Raise e, w') /\
    users w' = users world_with_bob /\
    (validate (email_valid (env world_with_bob)) carol = [] ->
     connection world_with_bob <> None ->
     env_fault (env world_with_bob) (n_op world_with_bob) = None ->
     exists msg, e = NotUniqueError msg).
Proof.
  apply (User_save_rejects_duplicate carol bob world_with_bob).
  - reflexivity.
  - left. reflexivity.
  - right. reflexivity.
Defined.

Lemma ForallOrdPairs_snoc {A} (R : A -> A -> Prop) (l : list A) (x : A) :
  ForallOrdPairs R l -> Forall (fun a => R a x) l -> ForallOrdPairs R (l ++ [x]).
Proof.
  induction 1 as [|a l Ha Hl IH]; intros Hx; simpl.
  - constructor; constructor.
  - inversion Hx as [|? ? Hax Hlx]; subst.
    constructor; [|now apply IH].
    apply Forall_app. split; [exact Ha | constructor; [exact Hax | constructor]].
Qed.

(** What a passed unique-index check says of each stored user. *)
Lemma User_no_conflict (u : User) (stored : list User) :
  unique_conflict u stored = false ->
  forall v, In v stored ->
    User_id v = User_id u \/
    (User_username v <> User_username u /\ User_email v <> User_email u).
Proof.
  intros Hc v Hin.
  destruct (id_eqb (User_id v) (User_id u)) eqn:E.
  - left. now apply id_eqb_eq.
  - right.
    assert (Hid : User_id v <> User_id u).
    { intros E'. apply id_eqb_eq in E'. congruence. }
    split; intros Hk;
      (assert (Ht : unique_conflict u stored = true)
         by (apply User_unique_conflict; exists v; auto));
      congruence.
Qed.

Lemma upsert_In_inv {D} `{DocumentClass D} (self x : D) (stored : list D) :
  In x (upsert self stored) -> x = self \/ In x stored.
Proof.
  unfold upsert.
  destruct (replace_by_id self stored) as [stored'|] eqn:E.
  - revert stored' E. induction stored as [|d rest IH]; intros stored' E Hin; simpl in E.
    + discriminate E.
    + destruct (id_eqb (doc_id d) (doc_id self)).
      * injection E as <-. destruct Hin as [<-|Hin]; [now left | right; now right].
      * destruct (replace_by_id self rest) as [rest'|]; [|discriminate E].
        injection E as <-. destruct Hin as [<-|Hin]; [right; now left|].
        destruct (IH _ eq_refl Hin) as [->|Hr]; [now left | right; now right].
  - intros Hin. apply in_app_or in Hin.
    destruct Hin as [Hin|[<-|[]]]; [now right | now left].
Qed.

Lemma distinct_users_sym (a b : User) : distinct_users a b -> distinct_users b a.
Proof. intros (H1 & H2 & H3). repeat split; congruence. Qed.

(** Overwriting or inserting a user that passed the unique-index check
    keeps the stored users distinct. *)
Lemma upsert_users_unique (u : User) (stored : list User) :
  users_unique stored ->
  unique_conflict u stored = false ->
  users_unique (upsert u stored).
Proof.
  intros Huniq Hc. pose proof (User_no_conflict u stored Hc) as Hnc. clear Hc.
  unfold users_unique in *.
  induction Huniq as [|d rest Hd Hrest IH].
  - cbn. constructor; constructor.
  - unfold upsert. cbn [replace_by_id doc_id User_Document].
    destruct (id_eqb (User_id d) (User_id u)) eqn:E.
    + apply id_eqb_eq in E. constructor; [|exact Hrest].
      rewrite Forall_forall in Hd |- *. intros v Hv.
      destruct (Hd v Hv) as (Hid & _).
      destruct (Hnc v (or_intror Hv)) as [Hsame | [Hun Hem]]; [congruence|].
      repeat split; congruence.
    + assert (Hdu : distinct_users d u).
      { destruct (Hnc d (or_introl eq_refl)) as [Hsame | [Hun Hem]].
        - apply id_eqb_eq in Hsame. congruence.
        - repeat split; [|exact Hun | exact Hem].
          intros E'. apply id_eqb_eq in E'. congruence. }
      assert (IH' : ForallOrdPairs distinct_users (upsert u rest))
        by (apply IH; intros v Hv; apply Hnc; now right).
      assert (Hall : Forall (distinct_users d) (upsert u rest)).
      { rewrite Forall_forall in Hd |- *. intros x Hx.
        destruct (upsert_In_inv _ _ _ Hx) as [-> | Hr]; [exact Hdu | now apply Hd]. }
      unfold upsert in IH', Hall |- *.
      destruct (replace_by_id u rest) as [rest'|]; constructor; assumption.
Qed.

(** A save keeps the stored users distinct, whether it inserts,
    overwrites or raises. *)
Lemma Document_save_users_unique (u : User) (w : World) :
  users_unique (users w) -> users_unique (users (snd (Document_save u w))).
Proof.
  intros Huniq.
  unfold Document_save, round_trip, driver_op.
  destruct (validate _ u); [|exact Huniq].
  destruct (connection w); [|exact Huniq].
  destruct (env_fault (env w) (n_op w)); [exact Huniq|].
  cbn [doc_id User_Document objects env n_oid set_n_op set_n_oid users].
  destruct (User_id u) as [i|] eqn:Hu.
  - destruct (unique_conflict u (users w)) eqn:Hc; [exact Huniq|].
    cbn. now apply upsert_users_unique.
  - destruct (has_id _ (users w)) eqn:Hh; [exact Huniq|].
    destruct (unique_conflict _ (users w)) eqn:Hc; [exact Huniq|].
    cbn. apply ForallOrdPairs_snoc; [exact Huniq|].
    apply Forall_forall. intros v Hv.
    assert (Hid : User_id v <> Some (env_oid (env w) (n_oid w))).
    { intros E. apply id_eqb_eq in E.
      assert (Ht : has_id (env_oid (env w) (n_oid w)) (users w) = true)
        by (apply existsb_exists; exists v; auto).
      congruence. }
    destruct (User_no_conflict _ _ Hc v Hv) as [Hsame | [Hun Hem]].
    + destruct u; cbn in Hsame. congruence.
    + destruct u; cbn in *. repeat split; assumption.
Qed.

(* ===================================================================== *)
(** * Invariants of the seeding                                          *)
(* ===================================================================== *)

Section SeedingInvariant.

(** An invariant [I] of the world that only a write to the users
    collection can break, and that saving a freshly built seed user
    keeps. *)
Variable I : World -> Prop.

Hypothesis I_frame :
  forall w w', users w' = users w -> same_but_users w w' -> I w -> I w'.

Hypothesis I_save :
  forall sd u w,
    In sd default_users -> User_id u = None -> seeded_at (env w) sd u ->
    is_missing (users w) sd = true ->
    I w -> I (snd (Document_save u w)).

Lemma round_trip_same (w : World) :
  users (snd (round_trip w)) = users w /\ same_but_users w (snd (round_trip w)).
Proof.
  unfold round_trip, driver_op.
  destruct (connection w) eqn:E; [destruct (env_fault (env w) (n_op w))|];
    cbn; unfold same_but_users; cbn; rewrite ?E; repeat split; reflexivity.
Qed.

Lemma create_default_user_keeps (sd : SeedUser) (n : nat) (w : World) :
  In sd default_users -> I w -> I (snd (create_default_user sd n w)).
Proof.
  intros Hsd HI.
  unfold create_default_user, objects_first.
  unfold bind at 1 2.
  pose proof (round_trip_same w) as [Hu Hsame].
  pose proof (I_frame _ _ Hu Hsame HI) as HI1.
  destruct (round_trip w) as [[[]|e] w1]; cbn [snd] in Hu, Hsame, HI1; [|exact HI1].
  cbn [objects User_Document].
  pose proof (find_existsb (fun d : User => pyval_eqb (field_value "username" d)
                                             (PStr (seed_username sd))) (users w1)) as Hf.
  fold (has_username (seed_username sd)) in Hf.
  destruct (find _ (users w1)) as [existing|]; [exact HI1|].
  unfold new_seed_User, User_set_password, generate_password_hash, call, utcnow,
    gen_salt, print, bind, ret.
  match goal with
  | |- context [Document_save ?u ?w0] =>
      assert (HI2 : I (snd (Document_save u w0)));
      [ apply (I_save sd);
        [ exact Hsd | reflexivity
        | repeat split; exists (n_salt w1); reflexivity
        | change (users w0) with (users w1); unfold is_missing; now rewrite Hf
        | apply (I_frame w1); [reflexivity | repeat split | exact HI1] ]
      | destruct (Document_save u w0) as [[u' [[]|e]] w2] ]
  end; cbn [snd] in HI2 |- *; [|exact HI2].
  apply (I_frame w2); [reflexivity | repeat split | exact HI2].
Qed.

Lemma create_default_users_loop_keeps (l : list SeedUser) :
  (forall sd, In sd l -> In sd default_users) ->
  forall n w, I w -> I (snd (create_default_users_loop l n w)).
Proof.
  induction l as [|sd rest IH]; intros Hl n w HI; [exact HI|].
  cbn [create_default_users_loop]. unfold bind.
  pose proof (create_default_user_keeps sd n w (Hl sd (or_introl eq_refl)) HI) as H1.
  destruct (create_default_user sd n w) as [[n1|e] w1]; cbn [snd] in H1; [|exact H1].
  apply IH; [intros sd' Hin; apply Hl; now right | exact H1].
Qed.

(** The whole run keeps the invariant, whether it returns [True] or
    [False]. *)
Lemma create_default_users_keeps (w : World) :
  I w -> I (snd (create_default_users w)).
Proof.
  intros HI.
  pose proof (create_default_users_loop_keeps default_users (fun _ H => H) 0%nat w HI)
    as Hloop.
  unfold create_default_users, try_except, bind, print, ret.
  destruct (create_default_users_loop default_users 0 w) as [[n'|e] w'];
    cbn [snd] in Hloop; [destruct (Nat.eqb n' 0)|]; cbn [snd];
    try exact Hloop;
    (eapply I_frame; [| |exact Hloop]; [reflexivity | repeat split]).
Qed.

End SeedingInvariant.

(** The run always ends with a boolean, never with an exception. *)
Lemma create_default_users_returns (w : World) :
  exists b, fst (create_default_users w) = Return b.
Proof.
  unfold create_default_users, try_except, bind, print, ret.
  destruct (create_default_users_loop default_users 0 w) as [[n'|e] w'];
    [destruct (Nat.eqb n' 0)|]; cbn; eauto.
Qed.

(** X7: the users collection stays free of duplicates: if no two stored
    users share an identifier, a username or an e-mail address, then none
    do after any [save] of a user (insert, overwrite or exception) nor
    after a run of [create_default_users] (successful or not). *)
Theorem users_stay_unique (w : World) :
  users_unique (users w) ->
  (forall u : User, users_unique (users (snd (Document_save u w)))) /\
  users_unique (users (snd (create_default_users w))).
Proof.
  intros Huniq. split.
  - intros u. now apply Document_save_users_unique.
  - apply (create_default_users_keeps (fun w => users_unique (users w))).
    + intros w0 w' Hu _ H. now rewrite Hu.
    + intros sd u w0 _ _ _ _ H. now apply Document_save_users_unique.
    + exact Huniq.
Qed.

(** X7 at the world whose only user is bob. *)
Lemma users_stay_unique_witness :
  (forall u : User, users_unique (users (snd (Document_save u world_with_bob)))) /\
  users_unique (users (snd (create_default_users world_with_bob))).
Proof.
  apply (users_stay_unique world_with_bob).
  repeat constructor.
Defined.

Lemma same_but_users_trans (a b c : World) :
  same_but_users a b -> same_but_users b c -> same_but_users a c.
Proof.
  unfold same_but_users.
  intros (H1 & H2 & H3 & H4 & H5 & H6) (G1 & G2 & G3 & G4 & G5 & G6).
  repeat split; congruence.
Qed.

(** Saving a user without identifier touches nothing but the users
    collection, to which it appends the user or which it leaves alone. *)
Lemma Document_save_new_User_world (u : User) (w : World) :
  User_id u = None ->
  same_but_users w (snd (Document_save u w)) /\
  (users (snd (Document_save u w)) = users w \/
   exists i, users (snd (Document_save u w)) = (users w ++ [User_set_id (Some i) u])%list).
Proof.
  intros Hid.
  destruct (Document_save_cases u w)
    as [(e & w' & -> & Hw) | [(_ & ->) | (Hn & _)]].
  - destruct Hw as [-> | [-> | ->]]; cbn [snd];
      (split; [repeat split; reflexivity | now left]).
  - cbn [snd]. split; [repeat split; reflexivity|]. right. eexists. reflexivity.
  - now destruct Hn.
Qed.

Lemma is_missing_app (l l' : list User) (sd : SeedUser) :
  is_missing (l ++ l') sd = true -> is_missing l sd = true.
Proof.
  unfold is_missing. rewrite existsb_app, negb_orb, andb_true_iff. tauto.
Qed.

Lemma seeded_at_set_id (e : Env) (sd : SeedUser) (u : User) (i : option ObjectId) :
  seeded_at e sd u -> seeded_at e sd (User_set_id i u).
Proof. destruct u. exact (fun H => H). Qed.

(** X8: a run of [create_default_users] never raises and never changes or
    removes what is stored: it returns a boolean, leaves the connection
    and the other four collections as they were, and the users collection
    after the run is the collection before it followed by the users it
    created, each for a seed entry whose username was missing, with
    [is_active = True] and a hash generated from the entry's password.
    This holds for a run that returns [False] as well: what it created
    before the exception stays. *)
Theorem create_default_users_only_appends (w : World) :
  (exists b, fst (create_default_users w) = Return b) /\
  same_but_users w (snd (create_default_users w)) /\
  exists created,
    users (snd (create_default_users w)) = (users w ++ created)%list /\
    Forall (fun u => exists sd,
                In sd default_users /\ is_missing (users w) sd = true /\
                seeded_at (env w) sd u) created.
Proof.
  split; [apply create_default_users_returns|].
  apply (create_default_users_keeps
           (fun w' =>
              same_but_users w w' /\
              exists created,
                users w' = (users w ++ created)%list /\
                Forall (fun u => exists sd,
                            In sd default_users /\ is_missing (users w) sd = true /\
                            seeded_at (env w) sd u) created)).
  - intros w0 w' Hu Hsame (H0 & created & Hc & Hall).
    split; [eapply same_but_users_trans; eassumption|].
    exists created. split; [congruence | exact Hall].
  - intros sd u w0 Hsd Hid Hseed Hmiss (H0 & created & Hc & Hall).
    destruct (Document_save_new_User_world u w0 Hid) as [Hsame [Hu | (i & Hu)]].
    + split; [eapply same_but_users_trans; eassumption|].
      exists created. split; [congruence | exact Hall].
    + split; [eapply same_but_users_trans; eassumption|].
      exists (created ++ [User_set_id (Some i) u])%list.
      split; [rewrite Hu, Hc, app_assoc; reflexivity|].
      apply Forall_app. split; [exact Hall|].
      constructor; [|constructor].
      exists sd. split; [exact Hsd|]. split.
      * rewrite Hc in Hmiss. now apply is_missing_app in Hmiss.
      * apply seeded_at_set_id. destruct H0 as [<- _]. exact Hseed.
  - split; [repeat split|]. exists []. split; [now rewrite app_nil_r | constructor].
Qed.

(** A user created by the seeding passes the password check with the
    seed's password, when method tag and salt hold no [$]. *)
Lemma seeded_at_check_password (e : Env) (sd : SeedUser) (u : User) :
  contains_char "$" (werkzeug_method e) = false ->
  (forall k, contains_char "$" (env_salt e k) = false) ->
  seeded_at e sd u ->
  forall w', env w' = e ->
    User_check_password u (seed_password sd) w' = (Return true, w').
Proof.
  intros Hm Hs (_ & _ & k & Hh) w' <-.
  unfold User_check_password. rewrite Hh.
  rewrite (check_generated_hash _ _ _ _ Hm (Hs k)), String.eqb_refl. reflexivity.
Qed.

(** X9: the seeded accounts can log in. After a run of
    [create_default_users], every stored user was stored before the run
    or carries a seed entry's username and passes [check_password] with
    that entry's password (Werkzeug's method tag and salts holding no
    [$]). *)
Theorem seeded_users_can_log_in (w : World) :
  contains_char "$" (werkzeug_method (env w)) = false ->
  (forall k, contains_char "$" (env_salt (env w) k) = false) ->
  Forall (fun u =>
            In u (users w) \/
            exists sd,
              In sd default_users /\ User_username u = Some (seed_username sd) /\
              forall w', env w' = env w ->
                User_check_password u (seed_password sd) w' = (Return true, w'))
    (users (snd (create_default_users w))).
Proof.
  intros Hm Hs.
  apply (create_default_users_keeps
           (fun w' =>
              env w' = env w /\
              Forall (fun u =>
                        In u (users w) \/
                        exists sd,
                          In sd default_users /\
                          User_username u = Some (seed_username sd) /\
                          forall w'', env w'' = env w ->
                            User_check_password u (seed_password sd) w'' =
                              (Return true, w''))
                (users w'))).
  - intros w0 w' Hu (He & _) (H0 & Hall). split; [congruence | now rewrite Hu].
  - intros sd u w0 Hsd Hid Hseed _ (H0 & Hall).
    destruct (Document_save_new_User_world u w0 Hid) as [(He & _) [Hu | (i & Hu)]].
    + split; [congruence | now rewrite Hu].
    + split; [congruence|]. rewrite Hu. apply Forall_app. split; [exact Hall|].
      constructor; [|constructor]. right. exists sd.
      split; [exact Hsd|]. rewrite H0 in Hseed. split.
      * destruct u; exact (proj1 Hseed).
      * apply seeded_at_check_password; [exact Hm | exact Hs |].
        now apply seeded_at_set_id.
  - split; [reflexivity|]. apply Forall_forall. intros u Hu. now left.
Qed.

(** X9 in the connected sample world, where both seed users are created. *)
Lemma seeded_users_can_log_in_witness :
  Forall (fun u =>
            In u (users connected_world) \/
            exists sd,
              In sd default_users /\ User_username u = Some (seed_username sd) /\
              forall w', env w' = env connected_world ->
                User_check_password u (seed_password sd) w' = (Return true, w'))
    (users (snd (create_default_users connected_world))).
Proof.
  apply (seeded_users_can_log_in connected_world).
  - reflexivity.
  - intros k. reflexivity.
Defined.

(* ===================================================================== *)
(** * Connection life cycle                                              *)
(* ===================================================================== *)

(** X10: [get_database_stats] right after [init_mongodb] returns the
    sizes of the five collections exactly when [connect] succeeded and
    none of the five counts raises, and [None] otherwise, whatever
    connection was registered before; [init_mongodb] itself leaves the
    stored collections as they were. *)
Theorem init_then_get_database_stats (app : option App) (w : World) :
  fst (get_database_stats (snd (init_mongodb app w))) =
    Return (if is_none (env_connect_error (env w)) &&
               no_fault_in_five (env w) (n_op w)
            then Some (collection_sizes w) else None) /\
  same_collections w (snd (init_mongodb app w)).
Proof.
  unfold init_mongodb, get_database_stats, try_except, bind, disconnect, connect, bind,
    objects_count, bind, round_trip, driver_op, print, ret, no_fault_in_five,
    same_collections, collection_sizes.
  destruct w as [e nc ns no k c us ms rs ls ps out calls]; cbn.
  destruct (env_connect_error e); cbn; [repeat split|].
  repeat match goal with
         | |- context [env_fault e ?i] =>
             destruct (env_fault e i); cbn; [repeat split|]
         end.
  repeat split.
Qed.

(** With a connection registered and the next operation on the server
    raising, the utilities fail softly. *)
Lemma utilities_when_server_fails (w : World) :
  connection w <> None ->
  is_none (env_fault (env w) (n_op w)) = false ->
  fst (get_database_stats w) = Return None /\
  fst (create_default_users w) = Return false /\
  users (snd (create_default_users w)) = users w.
Proof.
  destruct w as [e nc ns no k [c|] us ms rs ls ps out calls]; cbn [connection env n_op];
    [intros _ | intros Hc; now destruct Hc].
  intros Hf.
  unfold get_database_stats, create_default_users, try_except, bind, objects_count,
    create_default_users_loop, default_users, create_default_user, objects_first,
    bind, round_trip, driver_op, print, ret.
  cbn. destruct (env_fault e k); [cbn; repeat split | discriminate Hf].
Qed.

(** X11: with the server unreachable (every operation on it raises)
    [init_mongodb] still returns [True] and registers the connection; the
    utilities then fail softly at their first operation:
    [get_database_stats] returns [None], [create_default_users] returns
    [False] and creates no user. *)
Theorem unreachable_server_disables_utilities (app : option App) (w : World) :
  env_connect_error (env w) = None ->
  (forall k, is_none (env_fault (env w) k) = false) ->
  fst (init_mongodb app w) = Return true /\
  connection (snd (init_mongodb app w)) = Some init_settings /\
  fst (get_database_stats (snd (init_mongodb app w))) = Return None /\
  fst (create_default_users (snd (init_mongodb app w))) = Return false /\
  users (snd (create_default_users (snd (init_mongodb app w)))) = users w.
Proof.
  intros Hc Hf.
  destruct (init_mongodb_outcome app w)
    as (b & w' & E & He & Hop & Hu & _ & _ & _ & _ & Hout).
  rewrite Hc in Hout. destruct Hout as (-> & Hconn & _).
  rewrite E. cbn [fst snd].
  destruct (utilities_when_server_fails w') as (Hs & Hb & Hus).
  - rewrite Hconn. discriminate.
  - rewrite He. apply Hf.
  - repeat split; [exact Hconn | exact Hs | exact Hb | congruence].
Qed.

(** X11 at the world whose server is unreachable. *)
Lemma unreachable_server_disables_utilities_witness :
  fst (init_mongodb None unreachable_world) = Return true /\
  connection (snd (init_mongodb None unreachable_world)) = Some init_settings /\
  fst (get_database_stats (snd (init_mongodb None unreachable_world))) = Return None /\
  fst (create_default_users (snd (init_mongodb None unreachable_world))) = Return false /\
  users (snd (create_default_users (snd (init_mongodb None unreachable_world)))) =
    users unreachable_world.
Proof.
  apply (unreachable_server_disables_utilities None unreachable_world).
  - reflexivity.
  - intros k. reflexivity.
Defined.

(** X12: [test_mongodb_connection] always returns a boolean and never
    raises; it returns [True] exactly when none of its five driver
    operations raises, then having printed the two listings; it neither
    uses nor changes the registered connection (it succeeds without one)
    and leaves the collections alone. *)
Theorem test_mongodb_connection_is_independent (server : ProbeReplies) (w : World) :
  exists w',
    test_mongodb_connection server w = (Return (no_fault_in_five (env w) (n_op w)), w') /\
    connection w' = connection w /\
    driver_calls w' = driver_calls w /\
    same_collections w w' /\
    (no_fault_in_five (env w) (n_op w) = true ->
     stdout w' =
       (stdout w ++
        [ ("📊 Available databases: " ++
           repr_names server (reply_database_names server))%string;
          ("📁 Collections in medimorph_db: " ++
           repr_names server (reply_collection_names server))%string ])%list).
Proof.
  unfold test_mongodb_connection, try_except, bind, driver_op, print, ret,
    no_fault_in_five, same_collections.
  destruct w as [e nc ns no k c us ms rs ls ps out calls]; cbn.
  repeat match goal with
         | |- context [env_fault e ?i] =>
             destruct (env_fault e i); cbn;
             [ eexists; split; [reflexivity | repeat split; discriminate] | ]
         end.
  eexists. split; [reflexivity|]. repeat split.
  intros _. rewrite <- app_assoc. reflexivity.
Qed.

(* ===================================================================== *)
(** * Declared constraints at save time                                  *)
(* ===================================================================== *)

Lemma validate_field_required (email_ok : string -> bool) {D} `{DocumentClass D}
      (self : D) (f : Field) :
  f_required f = true -> field_value (f_name f) self = PNone ->
  In (f_name f, "Field is required") (validate_field email_ok (doc_data self) f).
Proof.
  unfold field_value, validate_field. intros Hr Hv.
  destruct (dict_get (f_name f) (doc_data self)) as [v|]; [subst v|];
    rewrite Hr; now left.
Qed.

Lemma validate_field_too_long (email_ok : string -> bool) {D} `{DocumentClass D}
      (self : D) (f : Field) (k : nat) (s : string) :
  f_type f = StringField \/ f_type f = EmailField ->
  f_max_length f = Some k -> field_value (f_name f) self = PStr s ->
  (k < py_len s)%nat ->
  exists msg, In (f_name f, msg) (validate_field email_ok (doc_data self) f).
Proof.
  unfold field_value, validate_field. intros Ht Hk Hv Hlen.
  destruct (dict_get (f_name f) (doc_data self)) as [v|]; [subst v | discriminate Hv].
  assert (Hlong : too_long f s = true).
  { unfold too_long. rewrite Hk. now apply Nat.ltb_lt. }
  unfold validate_value.
  destruct (choice_error f (PStr s)) as [msg|]; [exists msg; now left|].
  destruct Ht as [-> | ->]; cbn.
  - rewrite Hlong. eexists. now left.
  - destruct (email_ok s); cbn; [rewrite Hlong|]; eexists; now left.
Qed.

(** A record with a field in error is not written by [Document.save]. *)
Lemma Document_save_field_error {D} `{DocumentClass D} (self : D) (w : World)
      (f : Field) (msg : string) :
  In f doc_fields ->
  In (f_name f, msg) (validate_field (email_valid (env w)) (doc_data self) f) ->
  exists errors,
    Document_save self w = (self, Raise (ValidationError errors), w) /\
    mem_string (f_name f) (map fst errors) = true.
Proof.
  intros Hf Hm. apply Document_save_invalid. eapply validate_reports; eassumption.
Qed.

Ltac pick_field Hf :=
  cbn in Hf;
  repeat (destruct Hf as [<- | Hf]; [try discriminate |]); try destruct Hf.

Ltac entity_invalid lemma :=
  match goal with
  | |- context [Document_save ?self ?w0] =>
      let errors := fresh "errors" in
      let Hs := fresh "Hs" in
      let Hm := fresh "Hm" in
      destruct lemma as (errors & Hs & Hm);
      rewrite Hs; exists errors; cbn [fst snd];
      split; [reflexivity | split; [exact Hm | repeat split]]
  end.

(** X13: a field declared [required=True] is enforced by every [save],
    through the overrides as well: for every entity type, a record whose
    required field is unset is not written; [save] raises a
    ValidationError that names the field and the five collections stay as
    they were. *)
Theorem required_fields_enforced (e : Entity) (f : Field) (w : World) :
  In f (declared_fields e) ->
  f_required f = true ->
  stored_value e (f_name f) = PNone ->
  exists errors,
    snd (fst (Entity_save e w)) = Raise (ValidationError errors) /\
    mem_string (f_name f) (map fst errors) = true /\
    same_collections w (snd (Entity_save e w)).
Proof.
  intros Hf Hr Hv.
  destruct e as [u|m|r|l|p]; unfold Entity_save, Medication_save, Reminder_save;
    cbn [declared_fields] in Hf; unfold stored_value in Hv; cbn [stored_data] in Hv.
  - entity_invalid
      (Document_save_field_error u w f _ Hf
         (validate_field_required _ u f Hr Hv)).
  - assert (Hv' : field_value (f_name f)
                    (Medication_set_updated_at
                       (Some (env_clock (env w) (n_clock w))) m) = PNone).
    { clear -Hf Hr Hv. pick_field Hf; try discriminate Hr; exact Hv. }
    entity_invalid
      (Document_save_field_error _ (set_n_clock (S (n_clock w)) w) f _ Hf
         (validate_field_required _ _ f Hr Hv')).
  - assert (Hv' : field_value (f_name f)
                    (Reminder_set_updated_at
                       (Some (env_clock (env w) (n_clock w))) r) = PNone).
    { clear -Hf Hr Hv. pick_field Hf; try discriminate Hr; exact Hv. }
    entity_invalid
      (Document_save_field_error _ (set_n_clock (S (n_clock w)) w) f _ Hf
         (validate_field_required _ _ f Hr Hv')).
  - entity_invalid
      (Document_save_field_error l w f _ Hf
         (validate_field_required _ l f Hr Hv)).
  - entity_invalid
      (Document_save_field_error p w f _ Hf
         (validate_field_required _ p f Hr Hv)).
Qed.

(** X13 at a medication without a name. *)
Lemma required_fields_enforced_witness :
  exists errors,
    snd (fst (Entity_save (AMedication nameless) connected_world)) =
      Raise (ValidationError errors) /\
    mem_string "name" (map fst errors) = true /\
    same_collections connected_world
      (snd (Entity_save (AMedication nameless) connected_world)).
Proof.
  apply (required_fields_enforced (AMedication nameless)
           (max_length 100 (required (field "name" StringField))) connected_world).
  - cbn. tauto.
  - reflexivity.
  - reflexivity.
Defined.

Lemma max_length_is_on_strings (e : Entity) (f : Field) (k : nat) :
  In f (declared_fields e) -> f_max_length f = Some k ->
  f_type f = StringField \/ f_type f = EmailField.
Proof.
  intros Hf Hk.
  destruct e; cbn in Hf;
    repeat (destruct Hf as [<- | Hf];
            [first [discriminate Hk | now left | now right] |]);
    destruct Hf.
Qed.

(** The maximum counts characters, not bytes: a first name of 50
    two-byte characters is within the 50 declared for the field. *)
Lemma max_length_counts_characters :
  String.length (repeat_string 50 "é") = 100%nat /\
  too_long (max_length 50 (field "first_name" StringField)) (repeat_string 50 "é") = false.
Proof. split; reflexivity. Qed.

(** X14: a declared [max_length] is enforced by every [save], through the
    overrides as well: for every entity type, a record holding a string
    of more characters than the maximum declared for its field is not
    written; [save] raises a ValidationError that names the field and the
    five collections stay as they were. *)
Theorem max_length_enforced (e : Entity) (f : Field) (k : nat) (s : string) (w : World) :
  In f (declared_fields e) ->
  f_max_length f = Some k ->
  stored_value e (f_name f) = PStr s ->
  (k < py_len s)%nat ->
  exists errors,
    snd (fst (Entity_save e w)) = Raise (ValidationError errors) /\
    mem_string (f_name f) (map fst errors) = true /\
    same_collections w (snd (Entity_save e w)).
Proof.
  intros Hf Hk Hv Hlen.
  pose proof (max_length_is_on_strings e f k Hf Hk) as Ht.
  destruct e as [u|m|r|l|p]; unfold Entity_save, Medication_save, Reminder_save;
    cbn [declared_fields] in Hf; unfold stored_value in Hv; cbn [stored_data] in Hv.
  - destruct (validate_field_too_long (email_valid (env w)) u f k s Ht Hk Hv Hlen)
      as [msg Hmsg].
    entity_invalid (Document_save_field_error u w f msg Hf Hmsg).
  - assert (Hv' : field_value (f_name f)
                    (Medication_set_updated_at
                       (Some (env_clock (env w) (n_clock w))) m) = PStr s).
    { clear -Hf Hk Hv. pick_field Hf; try discriminate Hk; exact Hv. }
    destruct (validate_field_too_long (email_valid (env w)) _ f k s Ht Hk Hv' Hlen)
      as [msg Hmsg].
    entity_invalid
      (Document_save_field_error _ (set_n_clock (S (n_clock w)) w) f msg Hf Hmsg).
  - assert (Hv' : field_value (f_name f)
                    (Reminder_set_updated_at
                       (Some (env_clock (env w) (n_clock w))) r) = PStr s).
    { clear -Hf Hk Hv. pick_field Hf; try discriminate Hk; exact Hv. }
    destruct (validate_field_too_long (email_valid (env w)) _ f k s Ht Hk Hv' Hlen)
      as [msg Hmsg].
    entity_invalid
      (Document_save_field_error _ (set_n_clock (S (n_clock w)) w) f msg Hf Hmsg).
  - destruct (validate_field_too_long (email_valid (env w)) l f k s Ht Hk Hv Hlen)
      as [msg Hmsg].
    entity_invalid (Document_save_field_error l w f msg Hf Hmsg).
  - destruct (validate_field_too_long (email_valid (env w)) p f k s Ht Hk Hv Hlen)
      as [msg Hmsg].
    entity_invalid (Document_save_field_error p w f msg Hf Hmsg).
Qed.

(** X14 at a user whose first name has 51 two-byte characters. *)
Lemma max_length_enforced_witness :
  exists errors,
    snd (fst (Entity_save (AUser accented_user) connected_world)) =
      Raise (ValidationError errors) /\
    mem_string "first_name" (map fst errors) = true /\
    same_collections connected_world
      (snd (Entity_save (AUser accented_user) connected_world)).
Proof.
  apply (max_length_enforced (AUser accented_user)
           (max_length 50 (field "first_name" StringField))
           50%nat accented_name connected_world).
  - cbn. tauto.
  - reflexivity.
  - reflexivity.
  - vm_compute. lia.
Defined.

(* ===================================================================== *)
(** * Seeding: the run that succeeds                                     *)
(* ===================================================================== *)

Lemma has_email_spec (addr : string) (u : User) :
  has_email addr u = true <-> User_email u = Some addr.
Proof.
  unfold has_email, field_value. cbn.
  destruct (User_email u) as [n|]; cbn.
  - rewrite String.eqb_eq. split; [now intros -> | now intros [= ->]].
  - split; discriminate.
Qed.

(** A user built from a seed entry passes validation. *)
Lemma seed_user_validates (e : Env) (sd : SeedUser) (now : datetime) (h : string) :
  In sd default_users ->
  email_valid e (seed_email sd) = true ->
  Nat.leb (py_len h) 200 = true ->
  validate (email_valid e)
    (mk_User None (Some (seed_username sd)) (Some (seed_email sd)) (Some h)
       (Some (seed_first_name sd)) (Some (seed_last_name sd)) None None
       (Some true) (Some now) None) = [].
Proof.
  intros Hin He Hh.
  assert (Hlong : Nat.ltb 200 (py_len h) = false).
  { apply Nat.ltb_ge. now apply Nat.leb_le. }
  destruct Hin as [<- | [<- | []]]; cbn in He;
    unfold validate, validate_field, validate_value, choice_error, too_long;
    cbn -[Nat.ltb py_len]; rewrite He; cbn -[Nat.ltb py_len]; rewrite Hlong; reflexivity.
Qed.

(** The insert of a valid new user that meets no duplicate. *)
Lemma Document_save_inserts_User (u : User) (w : World) :
  User_id u = None ->
  validate (email_valid (env w)) u = [] ->
  connection w <> None ->
  env_fault (env w) (n_op w) = None ->
  has_id (env_oid (env w) (n_oid w)) (users w) = false ->
  unique_conflict (User_set_id (Some (env_oid (env w) (n_oid w))) u) (users w) = false ->
  Document_save u w =
    (User_set_id (Some (env_oid (env w) (n_oid w))) u, Return tt,
     set_users (users w ++ [User_set_id (Some (env_oid (env w) (n_oid w))) u])
       (set_n_oid (S (n_oid w)) (set_n_op (S (n_op w)) w))).
Proof.
  intros Hid Hv Hc Hf Hnew Hu.
  unfold Document_save, round_trip, driver_op.
  rewrite Hv.
  destruct (connection w) as [c|]; [|now destruct Hc].
  rewrite Hf.
  cbn [doc_id doc_set_id User_Document objects set_objects env n_oid set_n_op set_n_oid users].
  rewrite Hid, Hnew, Hu. reflexivity.
Qed.

(** One iteration of the loop when the database answers: the entry is
    skipped when its username is stored; otherwise, no stored user holding
    its e-mail address, one user is inserted for it under the next
    identifier. *)
Lemma create_default_user_ok (sd : SeedUser) (n : nat) (w : World) :
  database_answers w -> seeds_are_valid (env w) -> In sd default_users ->
  (is_missing (users w) sd = true ->
     has_id (env_oid (env w) (n_oid w)) (users w) = false /\
     existsb (has_email (seed_email sd)) (users w) = false) ->
  exists n' w',
    create_default_user sd n w = (Return n', w') /\
    env w' = env w /\ connection w' = connection w /\
    if is_missing (users w) sd
    then n_oid w' = S (n_oid w) /\
         exists u, users w' = (users w ++ [u])%list /\
                   User_id u = Some (env_oid (env w) (n_oid w)) /\
                   User_username u = Some (seed_username sd) /\
                   User_email u = Some (seed_email sd)
    else n_oid w' = n_oid w /\ users w' = users w.
Proof.
  intros [Hc Hf] Hv Hin Hnew.
  destruct (Hv sd Hin) as [Hmail Hhash].
  unfold create_default_user, objects_first.
  unfold bind at 1 2. unfold round_trip, driver_op.
  destruct (connection w) as [c|] eqn:Ec; [|now destruct Hc].
  rewrite Hf.
  cbn [objects User_Document users set_n_op].
  pose proof (find_existsb (fun d : User => pyval_eqb (field_value "username" d)
                                             (PStr (seed_username sd))) (users w)) as Hfind.
  fold (has_username (seed_username sd)) in Hfind.
  unfold is_missing in *.
  fold (has_username (seed_username sd)).
  destruct (find (has_username (seed_username sd)) (users w)) as [existing|];
    rewrite Hfind in *; cbn [negb] in *.
  - do 2 eexists. split; [reflexivity|]. cbn. auto.
  - destruct (Hnew eq_refl) as [Hid Hfree].
    unfold new_seed_User, User_set_password, generate_password_hash, call, utcnow,
      gen_salt, print, bind, ret.
    match goal with
    | |- context [Document_save ?u ?w0] =>
        rewrite (Document_save_inserts_User u w0)
    end.
    + do 2 eexists. split; [reflexivity|]. cbn. repeat split; try assumption.
      eexists. repeat split.
    + reflexivity.
    + exact (seed_user_validates (env w) sd (env_clock (env w) (n_clock w))
               (hash_string (env w) (env_salt (env w) (n_salt w)) (seed_password sd))
               Hin Hmail (Hhash (n_salt w))).
    + cbn. rewrite Ec. discriminate.
    + apply Hf.
    + exact Hid.
    + match goal with |- ?b = false => destruct b eqn:E; [|reflexivity] end.
      apply User_unique_conflict in E. destruct E as (v & Hv' & _ & [Hk | Hk]).
      * cbn in Hv', Hk.
        assert (Ht : existsb (has_username (seed_username sd)) (users w) = true).
        { apply existsb_exists. exists v. split; [exact Hv'|].
          now apply has_username_spec. }
        congruence.
      * cbn in Hv', Hk.
        assert (Ht : existsb (has_email (seed_email sd)) (users w) = true).
        { apply existsb_exists. exists v. split; [exact Hv'|].
          now apply has_email_spec. }
        congruence.
Qed.

(** C5 (amended): when the database answers, the seed entries pass
    validation and the identifiers generated are new, then for every
    starting user collection in which no user holds the e-mail address of
    a seed entry whose username is missing, [create_default_users] returns
    [True] and has appended exactly one user for each seed entry whose
    username was not stored (none for an entry whose username is stored),
    each with the entry's names and e-mail address, [is_active = True]
    and a hash generated from the entry's password; a second run returns
    [True] and creates no user. *)
Theorem create_default_users_idempotent (w : World) :
  database_answers w ->
  seeds_are_valid (env w) ->
  next_ids_are_new w ->
  seed_emails_free w ->
  exists w1 created w2,
    create_default_users w = (Return true, w1) /\
    users w1 = (users w ++ created)%list /\
    length created = length (missing_seeds w) /\
    Forall2 (seeded_from (env w)) (missing_seeds w) created /\
    create_default_users w1 = (Return true, w2) /\
    users w2 = users w1.
Proof.
  intros Hdb Hv (Hid0 & Hid1 & Hne) Hfree.
  assert (Hfree' : forall sd, In sd default_users -> is_missing (users w) sd = true ->
                     existsb (has_email (seed_email sd)) (users w) = false).
  { intros sd Hin Hm. apply Hfree. apply filter_In. now split. }
  (* the first entry *)
  destruct (create_default_user_ok
              (mk_SeedUser "testuser" "testuser@example.com" "testpass123" "Test" "User")
              0 w Hdb Hv (or_introl eq_refl))
    as (n1 & wa & E1 & Hea & Hca & R1).
  { intros Hm. split; [exact Hid0 | apply Hfree'; [now left | exact Hm]]. }
  (* the second entry *)
  destruct (create_default_user_ok
              (mk_SeedUser "karthikrai390@gmail.com" "karthikrai390@gmail.com" "123456"
                 "Karthik" "Rai")
              n1 wa)
    as (n2 & wb & E2 & Heb & Hcb & _).
  { destruct Hdb as [Hc Hf]. split; [now rewrite Hca | intros k; rewrite Hea; apply Hf]. }
  { now rewrite Hea. }
  { right. now left. }
  { rewrite Hea. intros Hm.
    destruct (is_missing (users w) _) eqn:M1 in R1.
    - destruct R1 as (-> & u1 & Hu1 & Hi1 & _ & Hm1).
      rewrite Hu1 in Hm |- *. unfold has_id. rewrite !existsb_app. cbn [existsb].
      unfold is_missing in Hm. rewrite existsb_app in Hm.
      apply negb_true_iff, orb_false_iff in Hm. destruct Hm as [Hm _].
      split.
      + fold (has_id (env_oid (env w) (S (n_oid w))) (users w)). rewrite Hid1.
        cbn [doc_id User_Document orb]. rewrite Hi1.
        destruct (id_eqb _ _) eqn:E; [|reflexivity].
        apply id_eqb_eq in E. now injection E.
      + rewrite (Hfree' _ (or_intror (or_introl eq_refl)));
          [|unfold is_missing; now rewrite Hm].
        cbn [orb]. destruct (has_email _ u1) eqn:E; [|reflexivity].
        apply has_email_spec in E. rewrite Hm1 in E. discriminate E.
    - destruct R1 as (Hn & Hu0). rewrite Hn, Hu0. rewrite Hu0 in Hm.
      split; [exact Hid0|].
      apply Hfree'; [right; now left | exact Hm]. }
  assert (Hloop : create_default_users_loop default_users 0 w = (Return n2, wb)).
  { unfold default_users. cbn [create_default_users_loop]. unfold bind.
    rewrite E1, E2. reflexivity. }
  assert (Hrun : exists w1, create_default_users w = (Return true, w1) /\
                            env w1 = env w /\ connection w1 = connection w).
  { unfold create_default_users, try_except. unfold bind at 1 2. rewrite Hloop.
    destruct (Nat.eqb n2 0); cbn; eexists; (split; [reflexivity|]); cbn; split; congruence. }
  destruct Hrun as (w1 & Hrun & He1 & Hc1).
  destruct (create_default_users_creates w w1 Hrun) as (created & Hu & Hall).
  pose proof (seeds_present_after w w1 created Hu Hall) as Hpresent.
  destruct (create_default_users_loop_all_present default_users 0 w1)
    as (w2 & Hloop2 & Hu2).
  { destruct Hdb as [Hc Hf]. split; [now rewrite Hc1 | intros k; rewrite He1; apply Hf]. }
  { exact Hpresent. }
  exists w1, created. eexists.
  split; [exact Hrun|]. split; [exact Hu|].
  split; [symmetry; exact (Forall2_length Hall)|]. split; [exact Hall|].
  unfold create_default_users, try_except. unfold bind at 1 2. rewrite Hloop2.
  cbn. split; [reflexivity | exact Hu2].
Qed.

(** C5 (amended) at a world where the first seed's username is stored:
    one user is created, for the second seed. *)
Lemma create_default_users_idempotent_witness :
  exists w1 created w2,
    create_default_users world_with_testuser = (Return true, w1) /\
    users w1 = (users world_with_testuser ++ created)%list /\
    length created = length (missing_seeds world_with_testuser) /\
    Forall2 (seeded_from (env world_with_testuser)) (missing_seeds world_with_testuser)
      created /\
    create_default_users w1 = (Return true, w2) /\
    users w2 = users w1.
Proof.
  apply (create_default_users_idempotent world_with_testuser).
  - split; [discriminate | intros k; reflexivity].
  - intros sd [<- | [<- | []]]; split; try reflexivity; intros k; reflexivity.
  - repeat split; try reflexivity. discriminate.
  - intros sd [<- | []]. reflexivity.
Defined.
